(** * beancount.scripts.checkdeps: dependency checks and their report

    A shallow embedding of [src/python/beancount/scripts/checkdeps.py].
    The script probes the running interpreter: it reads
    [sys.version_info], imports a fixed list of modules, reads their
    [__version__] attribute and prints one report line per dependency.

    The interpreter state the script reads is gathered in a record
    [environment]; the checks are functions of it in an error monad
    (a Python exception is a [Raise]), and the printing function runs in
    a writer over the chronological list of [print] calls. *)

From Stdlib Require Import ZArith List Ascii String Lia.
From Stdlib Require Import Numbers.DecimalString.
From Stdlib Require DecimalPos DecimalZ.
Import ListNotations.

Open Scope bool_scope.
Open Scope string_scope.
Open Scope Z_scope.

(** ** Python built-ins used by the script *)

Module Py.

(** [str(n)] for an [int]. *)
Definition str (n : Z) : string := NilZero.string_of_int (Z.to_int n).

(** [sep.join(parts)]. *)
Fixpoint join (sep : string) (parts : list string) : string :=
  match parts with
  | [] => ""
  | [p] => p
  | p :: rest => p ++ sep ++ join sep rest
  end.

(** Comparison of two tuples of ints: the first position where they
    differ decides; when one is a prefix of the other the shorter one is
    the smaller. *)
Fixpoint tuple_compare (a b : list Z) : comparison :=
  match a, b with
  | [], [] => Eq
  | [], _ :: _ => Lt
  | _ :: _, [] => Gt
  | x :: a', y :: b' =>
      match Z.compare x y with
      | Eq => tuple_compare a' b'
      | c => c
      end
  end.

Definition tuple_ge (a b : list Z) : bool :=
  match tuple_compare a b with
  | Lt => false
  | _ => true
  end.

(** Comparison of two [str]: code point by code point, the first
    difference decides, a proper prefix is smaller.  Characters are the
    8-bit [ascii] of Rocq strings, ordered by their code. *)
Fixpoint str_compare (a b : string) : comparison :=
  match a, b with
  | EmptyString, EmptyString => Eq
  | EmptyString, String _ _ => Lt
  | String _ _, EmptyString => Gt
  | String x a', String y b' =>
      match N.compare (N_of_ascii x) (N_of_ascii y) with
      | Eq => str_compare a' b'
      | c => c
      end
  end.

(** [a >= b] on [str]. *)
Definition str_ge (a b : string) : bool :=
  match str_compare a b with
  | Lt => false
  | _ => true
  end.

(** Truth value of a [str]: only the empty string is false. *)
Definition str_truthy (s : string) : bool :=
  match s with
  | EmptyString => false
  | String _ _ => true
  end.

(** Truth value of a value that is [None] or a [str]. *)
Definition truthy (v : option string) : bool :=
  match v with
  | None => false
  | Some s => str_truthy s
  end.

(** [a or b] where [a] is [None] or a [str] and [b] a [str]. *)
Definition or_else (a : option string) (b : string) : string :=
  match a with
  | Some s => if str_truthy s then s else b
  | None => b
  end.

Fixpoint spaces (n : nat) : string :=
  match n with
  | O => ""
  | S n' => String " " (spaces n')
  end.

(** The format field [{}] applied to a value that is [None] or a [str]. *)
Definition format_obj (v : option string) : string :=
  match v with
  | Some s => s
  | None => "None"
  end.

(** The format field [{:w}] applied to a [str]: left aligned, filled
    with spaces up to the minimal width [w], never cut. *)
Definition format_width (w : nat) (s : string) : string :=
  s ++ spaces (w - String.length s).

End Py.

(** ** Exceptions and the error monad *)

Inductive exn : Type :=
| ImportError
| ModuleNotFoundError            (* a subclass of ImportError *)
| AttributeError
| AssertionError
| KeyError
| SyntaxError
| OtherError (cls : string).     (* a class derived neither from ImportError
                                    nor from AttributeError *)

(** [isinstance(e, ImportError)], the test of [except ImportError]. *)
Definition is_ImportError (e : exn) : bool :=
  match e with
  | ImportError | ModuleNotFoundError => true
  | _ => false
  end.

(** [isinstance(e, AttributeError)], the test of [getattr] with a default. *)
Definition is_AttributeError (e : exn) : bool :=
  match e with
  | AttributeError => true
  | _ => false
  end.

Inductive result (A : Type) : Type :=
| Ok (a : A)
| Raise (e : exn).
Arguments Ok {A} a.
Arguments Raise {A} e.

Definition bind {A B : Type} (m : result A) (k : A -> result B) : result B :=
  match m with
  | Ok a => k a
  | Raise e => Raise e
  end.

(** [try: body except <class>: handler]. *)
Definition try_except {A : Type} (body : result A) (catches : exn -> bool)
    (handler : result A) : result A :=
  match body with
  | Ok a => Ok a
  | Raise e => if catches e then handler else Raise e
  end.

Declare Scope py_scope.
Delimit Scope py_scope with py.
Notation "x <- m ;; k" := (bind m (fun x => k))
  (at level 61, m at next level, right associativity) : py_scope.
Notation "' pat <- m ;; k" := (bind m (fun x => match x with pat => k end))
  (at level 61, pat pattern, m at next level, right associativity) : py_scope.
Open Scope py_scope.

(** ** The interpreter state read by the script *)

(** [sys.version_info]. *)
Record version_info_t : Type := {
  major : Z;
  minor : Z;
  micro : Z;
  releaselevel : string;
  serial : Z
}.

(** [sys.version_info[:n]] for the two slices taken by [check_python]. *)
Definition version_info_slice3 (v : version_info_t) : list Z :=
  [major v; minor v; micro v].
Definition version_info_slice2 (v : version_info_t) : list Z :=
  [major v; minor v].

(** What [type(decimal_module.Decimal().sqrt)] is. *)
Inductive method_kind : Type :=
| BuiltinFunctionType     (* implemented in C *)
| MethodType.             (* a method written in Python *)

(** A module handed to [is_fast_decimal], as far as the script looks at
    it.  [dec_sqrt] is what evaluating [Decimal().sqrt] on it gives: the
    kind of the method, or the exception raised on the way (AttributeError
    for a module without [Decimal]).  [dec_version] is what reading its
    [__version__] gives: the value found, which is [None] or a [str], or
    the exception raised (AttributeError for a module without the
    attribute). *)
Record decimal_module : Type := {
  dec_version : result (option string);
  dec_sqrt : result method_kind
}.

(** The object found in a module's [__version__]: a [str] or anything
    else ([None], a tuple, a number, ...), the two cases
    [isinstance(version, str)] tells apart. *)
Inductive pyobject : Type :=
| PyStr (s : string)
| PyNotStr.

(** A module loaded by [check_import], as far as the script looks at it.
    [mod_version] is the object that reading [__version__] gives, and
    [None] when the read raises; [mod_version_error] is the exception it
    raises then: AttributeError for a module that has no such attribute,
    any exception for a module that computes its attributes when they are
    asked for. *)
Record module : Type := {
  mod_version : option pyobject;
  mod_version_error : exn
}.

(** The outcome of an import statement. *)
Inductive import_outcome (M : Type) : Type :=
| Loaded (m : M)
| Fails (e : exn).
Arguments Loaded {M} m.
Arguments Fails {M} e.

(** The environment.  [decimal] belongs to the standard library:
    [import decimal] always gives a module, which has a [Decimal] class
    with a [sqrt] method and a [__version__] string.  [import_cdecimal]
    is what [import cdecimal] gives; it is the entry of the name cdecimal,
    kept apart because the script looks at other attributes of that
    module.  [import_module name] is what
    [__import__(name)] followed by [sys.modules[name]] gives as a whole,
    the import of the parent packages of a dotted name included; the
    entries of a package and of its submodules are therefore related in
    an interpreter, and nothing below changes one without the other. *)
Record environment : Type := {
  version_info : version_info_t;
  decimal_version : string;
  decimal_sqrt : method_kind;
  import_cdecimal : import_outcome decimal_module;
  import_module : string -> import_outcome module
}.

(** The module object bound by [import decimal]. *)
Definition stdlib_decimal (env : environment) : decimal_module :=
  {| dec_version := Ok (Some (decimal_version env));
     dec_sqrt := Ok (decimal_sqrt env) |}.

Definition import_ {M : Type} (o : import_outcome M) : result M :=
  match o with
  | Loaded m => Ok m
  | Fails e => Raise e
  end.

(** ** The checks *)

(** A triple (package-name, version-number, sufficient). *)
Definition CheckResult : Type := (string * option string * bool)%type.

Definition cr_name (r : CheckResult) : string := fst (fst r).
Definition cr_version (r : CheckResult) : option string := snd (fst r).
Definition cr_sufficient (r : CheckResult) : bool := snd r.

Definition check_python (env : environment) : CheckResult :=
  ("python3",
   Some (Py.join "." (map Py.str (version_info_slice3 (version_info env)))),
   Py.tuple_ge (version_info_slice2 (version_info env)) [3; 3]).


(** [isinstance(decimal_module.Decimal().sqrt, types.BuiltinFunctionType)];
    evaluating the argument may raise. *)
Definition is_fast_decimal (decimal_module : decimal_module) : result bool :=
  sqrt <- dec_sqrt decimal_module;;
  Ok match sqrt with
     | BuiltinFunctionType => true
     | MethodType => false
     end.

(** [m.__version__] on a decimal module. *)
Definition dec_get_version (m : decimal_module) : result (option string) :=
  dec_version m.

(** [getattr(m, '__version__', default)] on a decimal module: the default
    replaces an AttributeError and nothing else. *)
Definition dec_getattr_version (m : decimal_module) (default : string)
    : result (option string) :=
  match dec_version m with
  | Ok v => Ok v
  | Raise e => if is_AttributeError e then Ok (Some default) else Raise e
  end.

(** The [return] inside the [try] block is the [Some] of the block's
    value; [None] is control reaching the statement after the block. *)
Definition check_cdecimal (env : environment) : result CheckResult :=
  decimal <- Ok (stdlib_decimal env);;
  fast <- is_fast_decimal decimal;;
  if fast then
    v <- dec_get_version decimal;;
    Ok ("cdecimal", Some (Py.format_obj v ++ " (built-in)"), true)
  else
    returned <- try_except
      (cdecimal <- import_ (import_cdecimal env);;
       fast <- is_fast_decimal cdecimal;;
       if fast then
         v <- dec_getattr_version cdecimal "OKAY";;
         Ok (Some ("cdecimal", v, true))
       else Ok None)
      is_ImportError
      (Ok None);;
    match returned with
    | Some r => Ok r
    | None => Ok ("cdecimal", None, false)
    end.

(** [module.__version__]. *)
Definition get_version (m : module) : result pyobject :=
  match mod_version m with
  | Some v => Ok v
  | None => Raise (mod_version_error m)
  end.

(** [assert isinstance(version, str)]; the string is handed on. *)
Definition assert_isinstance_str (version : pyobject) : result string :=
  match version with
  | PyStr s => Ok s
  | PyNotStr => Raise AssertionError
  end.

(** [version >= min_version if min_version else True]. *)
Definition sufficient_for (version : string) (min_version : option string) : bool :=
  if Py.truthy min_version then
    match min_version with
    | Some m => Py.str_ge version m
    | None => true
    end
  else true.

Definition check_import (env : environment) (package_name : string)
    (min_version : option string) (module_name : option string)
    : result CheckResult :=
  let module_name :=
    match module_name with
    | None => package_name
    | Some m => m
    end in
  '(version, is_sufficient) <- try_except
      (module <- import_ (import_module env module_name);;
       version <- get_version module;;
       version <- assert_isinstance_str version;;
       Ok (Some version, sufficient_for version min_version))
      is_ImportError
      (Ok (None, false));;
  Ok (package_name, version, is_sufficient).

(** The list display is evaluated element by element, left to right. *)
Definition check_dependencies (env : environment) : result (list CheckResult) :=
  r_python <- Ok (check_python env);;
  r_cdecimal <- check_cdecimal env;;
  r_dateutil <- check_import env "dateutil" None None;;
  r_bottle <- check_import env "bottle" None None;;
  r_ply <- check_import env "ply" (Some "3.4") (Some "ply.yacc");;
  r_lxml <- check_import env "lxml" (Some "3") (Some "lxml.etree");;
  r_apiclient <- check_import env "apiclient" None None;;
  r_oauth2client <- check_import env "oauth2client" None None;;
  Ok [r_python; r_cdecimal; r_dateutil; r_bottle; r_ply; r_lxml;
      r_apiclient; r_oauth2client].

(** ** The report *)

(** The objects [print] can be given as [file]. *)
Inductive file_object : Type :=
| sys_stdout
| sys_stderr
| open_file (fd : nat).

(** Everything printed so far: which file, which text, oldest first. *)
Definition output : Type := list (file_object * string).

(** A computation that prints and may raise. *)
Definition IO (A : Type) : Type := output -> output * result A.

Definition io_bind {A B : Type} (m : IO A) (k : A -> IO B) : IO B :=
  fun out =>
    match m out with
    | (out', Ok a) => k a out'
    | (out', Raise e) => (out', Raise e)
    end.

Definition io_lift {A : Type} (r : result A) : IO A := fun out => (out, r).

Notation "x <-- m ;;; k" := (io_bind m (fun x => k))
  (at level 61, m at next level, right associativity) : py_scope.
Notation "m ;;; k" := (io_bind m (fun _ => k))
  (at level 61, right associativity) : py_scope.

Definition newline : string := String (ascii_of_nat 10) "".

(** [print(text, file=file)]: the text and a line end go to [file]. *)
Definition print (text : string) (file : file_object) : IO unit :=
  fun out => (List.app out [(file, String.append text newline)], Ok tt).

(** [for x in xs: body]. *)
Fixpoint for_each {A : Type} (xs : list A) (body : A -> IO unit) : IO unit :=
  match xs with
  | [] => io_lift (Ok tt)
  | x :: rest => body x ;;; for_each rest body
  end.

(** ["   {:16}: {} {}".format(a, b, c)]. *)
Definition format_line (a b c : string) : string :=
  "   " ++ Py.format_width 16 a ++ ": " ++ b ++ " " ++ c.

(** The second and third arguments of [format] in [list_dependencies]. *)
Definition version_field (version : option string) : string :=
  Py.or_else version "NOT INSTALLED".

Definition insufficient_field (version : option string) (sufficient : bool)
    : string :=
  if Py.truthy version && negb sufficient then "(INSUFFICIENT)" else "".

(** [file] is [None] when the caller leaves the default, [sys.stderr].
    The first [print] names no file and so goes to [sys.stdout]. *)
Definition list_dependencies (env : environment) (file : option file_object)
    : IO unit :=
  let file :=
    match file with
    | Some f => f
    | None => sys_stderr
    end in
  print "Dependencies:" sys_stdout ;;;
  deps <-- io_lift (check_dependencies env) ;;;
  for_each deps (fun '(package, version, sufficient) =>
    print (format_line package (version_field version)
             (insufficient_field version sufficient)) file).

(** The prints of a computation started with nothing printed. *)
Definition printed {A : Type} (m : IO A) : output := fst (m []).
Definition returned {A : Type} (m : IO A) : result A := snd (m []).

(** ** Sample environments *)

Definition release (a b c : Z) : version_info_t :=
  {| major := a; minor := b; micro := c;
     releaselevel := "final"; serial := 0 |}.

(** Python 3.3.0 with the C decimal module and nothing else installed. *)
Definition bare_env : environment :=
  {| version_info := release 3 3 0;
     decimal_version := "1.70";
     decimal_sqrt := BuiltinFunctionType;
     import_cdecimal := Fails ImportError;
     import_module := fun _ => Fails ImportError |}.

(** [env] where importing [name] has the outcome [o]. *)
Definition with_module (name : string) (o : import_outcome module)
    (env : environment) : environment :=
  {| version_info := version_info env;
     decimal_version := decimal_version env;
     decimal_sqrt := decimal_sqrt env;
     import_cdecimal := import_cdecimal env;
     import_module := fun n => if String.eqb n name then o else import_module env n |}.

(** [env] run by another interpreter release. *)
Definition with_version_info (v : version_info_t) (env : environment)
    : environment :=
  {| version_info := v;
     decimal_version := decimal_version env;
     decimal_sqrt := decimal_sqrt env;
     import_cdecimal := import_cdecimal env;
     import_module := import_module env |}.

(** [env] with a decimal module written in Python and the given outcome
    of [import cdecimal]. *)
Definition with_slow_decimal (o : import_outcome decimal_module)
    (env : environment) : environment :=
  {| version_info := version_info env;
     decimal_version := decimal_version env;
     decimal_sqrt := MethodType;
     import_cdecimal := o;
     import_module := import_module env |}.

Definition installed (version : string) : import_outcome module :=
  Loaded {| mod_version := Some (PyStr version);
            mod_version_error := AttributeError |}.

(** A module whose [__version__] cannot be read: the read raises [e]. *)
Definition unreadable_version (e : exn) : import_outcome module :=
  Loaded {| mod_version := None; mod_version_error := e |}.

(** A cdecimal package with the given version and kind of [sqrt]. *)
Definition decimal_package (version : result (option string))
    (sqrt : result method_kind) : import_outcome decimal_module :=
  Loaded {| dec_version := version; dec_sqrt := sqrt |}.

(** ** Notions used to state the properties *)

(** The module [check_import] loads: [module_name] unless it is left out. *)
Definition imported_name (package_name : string) (module_name : option string)
    : string :=
  match module_name with
  | None => package_name
  | Some m => m
  end.

(** The [check_import] calls of [check_dependencies], in order:
    package name, minimal version, module name. *)
Definition configured_imports : list (string * option string * option string) :=
  [("dateutil", None, None);
   ("bottle", None, None);
   ("ply", Some "3.4", Some "ply.yacc");
   ("lxml", Some "3", Some "lxml.etree");
   ("apiclient", None, None);
   ("oauth2client", None, None)].

Definition run_import (env : environment)
    (c : string * option string * option string) : result CheckResult :=
  let '(package_name, min_version, module_name) := c in
  check_import env package_name min_version module_name.

Definition dependency_names : list string :=
  ["python3"; "cdecimal"; "dateutil"; "bottle"; "ply"; "lxml";
   "apiclient"; "oauth2client"].

(** An absent version is never judged sufficient. *)
Definition absent_insufficient (r : CheckResult) : Prop :=
  cr_version r = None -> cr_sufficient r = false.

(** The file the dependency lines go to. *)
Definition file_or_default (file : option file_object) : file_object :=
  match file with
  | Some f => f
  | None => sys_stderr
  end.

(** The text printed for one result by the body of the loop. *)
Definition printed_line (r : CheckResult) : string :=
  let '(package, version, sufficient) := r in
  format_line package (version_field version)
    (insufficient_field version sufficient) ++ newline.

(** [needle in hay]. *)
Fixpoint contains (needle hay : string) : bool :=
  if String.prefix needle hay then true
  else match hay with
       | EmptyString => false
       | String _ rest => contains needle rest
       end.

(** The character [c] does not occur in [s]. *)
Fixpoint lacks (c : ascii) (s : string) : bool :=
  match s with
  | EmptyString => true
  | String x rest => negb (Ascii.eqb x c) && lacks c rest
  end.

(** No end of [needle], [needle] included and the empty one excluded,
    is a start of [text]. *)
Fixpoint no_overlap (needle text : string) : bool :=
  match needle with
  | EmptyString => true
  | String _ rest => negb (String.prefix needle text) && no_overlap rest text
  end.

(** The start of a report line: the name in a column of 16. *)
Definition name_column (name : string) : string :=
  "   " ++ name ++ Py.spaces (16 - String.length name) ++ ": ".

(** The report line of a result, case by case. *)
Inductive report_line : CheckResult -> string -> Prop :=
| line_not_installed : forall name version sufficient,
    version = None \/ version = Some "" ->
    report_line (name, version, sufficient)
      (name_column name ++ "NOT INSTALLED" ++ " ")
| line_sufficient : forall name v,
    v <> "" ->
    report_line (name, Some v, true) (name_column name ++ v ++ " ")
| line_insufficient : forall name v,
    v <> "" ->
    report_line (name, Some v, false)
      (name_column name ++ v ++ " " ++ "(INSUFFICIENT)").

(** The lexicographic order on strings, as a relation: the empty string
    is below every string, and two non-empty strings are ordered by their
    first characters or, when these are the same, by their tails. *)
Inductive lex_le : string -> string -> Prop :=
| lex_le_empty : forall s, lex_le "" s
| lex_le_head : forall c1 c2 s1 s2,
    (N_of_ascii c1 < N_of_ascii c2)%N -> lex_le (String c1 s1) (String c2 s2)
| lex_le_tail : forall c s1 s2,
    lex_le s1 s2 -> lex_le (String c s1) (String c s2).

(** The module names [check_dependencies] hands to [__import__]. *)
Definition probed_modules : list string :=
  ["dateutil"; "bottle"; "ply.yacc"; "lxml.etree"; "apiclient"; "oauth2client"].

(** The exception of the first computation that raises, going through
    the list from the left. *)
Fixpoint first_raise {A : Type} (rs : list (result A)) : option exn :=
  match rs with
  | [] => None
  | Ok _ :: rest => first_raise rest
  | Raise e :: _ => Some e
  end.

(** The import of a module ends in a way [check_import] copes with: the
    module is loaded and its [__version__] is read as a [str], or the
    import or the read raised ImportError. *)
Definition module_ok (env : environment) (name : string) : bool :=
  match import_module env name with
  | Loaded m =>
      match mod_version m with
      | Some (PyStr _) => true
      | Some PyNotStr => false
      | None => is_ImportError (mod_version_error m)
      end
  | Fails e => is_ImportError e
  end.

(** The same for [check_cdecimal], which does not import cdecimal when
    the built-in decimal module is fast, reads the version of a fast
    cdecimal only, and takes a missing version for OKAY. *)
Definition cdecimal_ok (env : environment) : bool :=
  match decimal_sqrt env with
  | BuiltinFunctionType => true
  | MethodType =>
      match import_cdecimal env with
      | Loaded m =>
          match dec_sqrt m with
          | Ok BuiltinFunctionType =>
              match dec_version m with
              | Ok _ => true
              | Raise e => is_AttributeError e || is_ImportError e
              end
          | Ok MethodType => true
          | Raise e => is_ImportError e
          end
      | Fails e => is_ImportError e
      end
  end.

(** ** Proof automation *)

Create HintDb checkdeps.
#[local] Hint Constructors lex_le : checkdeps.

Ltac bind_inv H :=
  repeat match type of H with
  | bind ?m _ = Ok _ =>
      let r := fresh "r" in
      let E := fresh "E" in
      destruct m as [r|] eqn:E; simpl in H; [|discriminate H]
  end.

(** ** The order on strings *)

Lemma N_of_ascii_inj (a b : ascii) : N_of_ascii a = N_of_ascii b -> a = b.
Proof.
  intros H. rewrite <- (ascii_N_embedding a), <- (ascii_N_embedding b).
  now rewrite H.
Qed.

Lemma str_ge_lex_le (a b : string) : Py.str_ge a b = true <-> lex_le b a.
Proof.
  unfold Py.str_ge. revert b.
  induction a as [|x a IH]; intros [|y b]; simpl.
  - split; auto with checkdeps.
  - split; [discriminate | intros H; inversion H].
  - split; auto with checkdeps.
  - destruct (N.compare_spec (N_of_ascii x) (N_of_ascii y)) as [E|L|G].
    + apply N_of_ascii_inj in E. subst y. rewrite IH. split.
      * auto with checkdeps.
      * intros H. inversion H; subst; [lia | assumption].
    + split; [discriminate|].
      intros H. inversion H; subst; lia.
    + split; auto with checkdeps.
Qed.

Lemma str_ge_empty (v : string) : Py.str_ge v "" = true.
Proof. destruct v; reflexivity. Qed.

(** The comparison with a pair of ints, spelled out. *)
Lemma tuple_ge_pair (a b c d : Z) :
  Py.tuple_ge [a; b] [c; d] = true <-> c < a \/ (a = c /\ d <= b).
Proof.
  unfold Py.tuple_ge. simpl.
  destruct (Z.compare_spec a c) as [E|L|G].
  - subst. destruct (Z.compare_spec b d) as [E|L|G]; split; intros H;
      try discriminate; try reflexivity; lia.
  - split; [discriminate | lia].
  - split; [lia | reflexivity].
Qed.

(** ** The interpreter check *)

(** C5: [check_python] reports major.minor.micro joined by dots, and is
    sufficient exactly when (major, minor) is at least (3, 3): 3.2.x is
    not, 3.3.0 and 4.0.0 are. *)
Theorem check_python_spec :
  forall env : environment,
    let v := version_info env in
    check_python env =
      ("python3",
       Some (Py.str (major v) ++ "." ++ Py.str (minor v) ++ "." ++ Py.str (micro v)),
       cr_sufficient (check_python env))
    /\ (cr_sufficient (check_python env) = true
        <-> 3 < major v \/ (major v = 3 /\ 3 <= minor v))
    /\ (forall x, cr_sufficient
          (check_python (with_version_info (release 3 2 x) env)) = false)
    /\ cr_sufficient (check_python (with_version_info (release 3 3 0) env)) = true
    /\ cr_sufficient (check_python (with_version_info (release 4 0 0) env)) = true.
Proof.
  intros env v. repeat split.
  - unfold cr_sufficient, check_python. simpl. apply tuple_ge_pair.
  - unfold cr_sufficient, check_python. simpl. apply tuple_ge_pair.
Qed.

(** ** Importing a module and reading its version *)

(** Every path through [check_import], by what the import gives. *)
Lemma check_import_cases env package_name min_version module_name :
  check_import env package_name min_version module_name =
    match import_module env (imported_name package_name module_name) with
    | Fails e =>
        if is_ImportError e then Ok (package_name, None, false) else Raise e
    | Loaded m =>
        match mod_version m with
        | None =>
            if is_ImportError (mod_version_error m)
            then Ok (package_name, None, false)
            else Raise (mod_version_error m)
        | Some PyNotStr => Raise AssertionError
        | Some (PyStr v) =>
            Ok (package_name, Some v, sufficient_for v min_version)
        end
    end.
Proof.
  unfold check_import, imported_name.
  destruct module_name as [n|];
    (destruct (import_module env _) as [[[[v|]|] err]|e]; simpl;
     [reflexivity | reflexivity | destruct (is_ImportError err); reflexivity
     | destruct (is_ImportError e); reflexivity]).
Qed.

Lemma sufficient_for_given (v m : string) :
  sufficient_for v (Some m) = Py.str_ge v m.
Proof.
  unfold sufficient_for. simpl. destruct m as [|c m]; simpl.
  - symmetry. apply str_ge_empty.
  - reflexivity.
Qed.

Lemma check_import_returns_name env package_name min_version module_name r :
  check_import env package_name min_version module_name = Ok r ->
  cr_name r = package_name.
Proof.
  rewrite check_import_cases.
  destruct (import_module env _) as [[[[v|]|] err]|e]; try discriminate.
  - intros H. injection H as <-. reflexivity.
  - simpl. destruct (is_ImportError err); [|discriminate].
    intros H. injection H as <-. reflexivity.
  - destruct (is_ImportError e); [|discriminate].
    intros H. injection H as <-. reflexivity.
Qed.

(** C3: when the module is loaded and carries a version string, the flag
    returned by [check_import] is the lexicographic comparison
    [version >= min_version] if a minimum is given, and true if not. *)
Theorem check_import_sufficiency :
  forall env package_name min_version module_name m v,
    import_module env (imported_name package_name module_name) = Loaded m ->
    mod_version m = Some (PyStr v) ->
    exists flag,
      check_import env package_name min_version module_name
        = Ok (package_name, Some v, flag)
      /\ match min_version with
         | Some floor => flag = Py.str_ge v floor /\ (flag = true <-> lex_le floor v)
         | None => flag = true
         end
      /\ (v = "3.10" -> min_version = Some "3.4" -> flag = false).
Proof.
  intros env package_name min_version module_name m v Himp Hver.
  rewrite check_import_cases, Himp, Hver.
  eexists. split; [reflexivity|]. split.
  - destruct min_version as [floor|]; [|reflexivity].
    rewrite sufficient_for_given. split; [reflexivity | apply str_ge_lex_le].
  - intros -> ->. reflexivity.
Qed.

(** ply 3.10 is judged below the floor 3.4: the comparison is on
    characters, not on numbers. *)
Lemma check_import_sufficiency_witness :
  import_module (with_module "ply.yacc" (installed "3.10") bare_env)
      (imported_name "ply" (Some "ply.yacc"))
    = installed "3.10"
  /\ check_import (with_module "ply.yacc" (installed "3.10") bare_env)
       "ply" (Some "3.4") (Some "ply.yacc")
     = Ok ("ply", Some "3.10", false).
Proof.
  split; [reflexivity|].
  destruct (check_import_sufficiency
              (with_module "ply.yacc" (installed "3.10") bare_env)
              "ply" (Some "3.4") (Some "ply.yacc")
              {| mod_version := Some (PyStr "3.10");
                 mod_version_error := AttributeError |} "3.10"
              eq_refl eq_refl) as [flag [Hret [_ Hflag]]].
  rewrite Hret, (Hflag eq_refl eq_refl). reflexivity.
Defined.

(** C10: the first component of the triple [check_import] returns is the
    display name it was given, whatever module was imported and whether
    or not the import worked. *)
Theorem check_import_name :
  forall env package_name min_version module_name r,
    check_import env package_name min_version module_name = Ok r ->
    cr_name r = package_name.
Proof.
  intros env package_name min_version module_name r.
  apply check_import_returns_name.
Qed.

Lemma check_import_name_witness :
  cr_name ("lxml", @None string, false) = "lxml"
  /\ cr_name ("ply", Some "3.10", false) = "ply".
Proof.
  split.
  - apply (check_import_name bare_env "lxml" (Some "3") (Some "lxml.etree")).
    reflexivity.
  - apply (check_import_name
             (with_module "ply.yacc" (installed "3.10") bare_env)
             "ply" (Some "3.4") (Some "ply.yacc")).
    reflexivity.
Defined.

(** ** The list of checks *)

(** The built-in decimal module is always inspected without error. *)
Lemma is_fast_stdlib_decimal env :
  is_fast_decimal (stdlib_decimal env)
  = Ok match decimal_sqrt env with
       | BuiltinFunctionType => true
       | MethodType => false
       end.
Proof. reflexivity. Qed.

(** Every path through [check_cdecimal]. *)
Lemma check_cdecimal_cases env :
  check_cdecimal env =
    match decimal_sqrt env with
    | BuiltinFunctionType =>
        Ok ("cdecimal", Some (decimal_version env ++ " (built-in)"), true)
    | MethodType =>
        match import_cdecimal env with
        | Loaded cdecimal =>
            match dec_sqrt cdecimal with
            | Ok BuiltinFunctionType =>
                match dec_version cdecimal with
                | Ok v => Ok ("cdecimal", v, true)
                | Raise e =>
                    if is_AttributeError e
                    then Ok ("cdecimal", Some "OKAY", true)
                    else if is_ImportError e
                         then Ok ("cdecimal", None, false)
                         else Raise e
                end
            | Ok MethodType => Ok ("cdecimal", None, false)
            | Raise e =>
                if is_ImportError e then Ok ("cdecimal", None, false)
                else Raise e
            end
        | Fails e =>
            if is_ImportError e then Ok ("cdecimal", None, false) else Raise e
        end
    end.
Proof.
  unfold check_cdecimal, is_fast_decimal, dec_get_version, dec_getattr_version.
  simpl.
  destruct (decimal_sqrt env); simpl; [reflexivity|].
  destruct (import_cdecimal env) as [[ver [[|]|e]]|e]; simpl;
    try reflexivity;
    try (destruct (is_ImportError e); reflexivity).
  destruct ver as [v|e]; simpl; [reflexivity|].
  destruct (is_AttributeError e); simpl; [reflexivity|].
  destruct (is_ImportError e); reflexivity.
Qed.

Ltac cdecimal_cases :=
  rewrite check_cdecimal_cases;
  repeat match goal with
  | |- context [match decimal_sqrt ?env with _ => _ end] =>
      destruct (decimal_sqrt env)
  | |- context [match import_cdecimal ?env with _ => _ end] =>
      destruct (import_cdecimal env) as [[[?|?] [[|]|?]]|?]; simpl
  | |- context [if is_AttributeError ?e then _ else _] =>
      destruct (is_AttributeError e) eqn:?
  | |- context [if is_ImportError ?e then _ else _] =>
      destruct (is_ImportError e) eqn:?
  end.

Lemma check_cdecimal_name env r :
  check_cdecimal env = Ok r -> cr_name r = "cdecimal".
Proof.
  cdecimal_cases; intros H; try discriminate; injection H as <-; reflexivity.
Qed.

Lemma check_dependencies_inv env deps :
  check_dependencies env = Ok deps ->
  exists r_cdecimal rs,
    check_cdecimal env = Ok r_cdecimal
    /\ Forall2 (fun c r => run_import env c = Ok r) configured_imports rs
    /\ deps = check_python env :: r_cdecimal :: rs.
Proof.
  unfold check_dependencies. simpl. intros H.
  bind_inv H. injection H as <-.
  eexists. eexists. split; [reflexivity|]. split; [|reflexivity].
  unfold configured_imports. repeat constructor; assumption.
Qed.

Lemma check_dependencies_raises env c e :
  In c configured_imports ->
  run_import env c = Raise e ->
  exists e', check_dependencies env = Raise e'.
Proof.
  intros Hin Hraise.
  destruct (check_dependencies env) as [deps|e'] eqn:Hd; [|eauto].
  apply check_dependencies_inv in Hd.
  destruct Hd as (r & rs & _ & Hall & _).
  exfalso. revert Hin Hraise. generalize configured_imports Hall.
  clear. intros cs Hall. induction Hall as [|c0 r0 cs rs H0 _ IH]; intros [].
  - subst. congruence.
  - auto.
Qed.

Lemma check_dependencies_names env deps :
  check_dependencies env = Ok deps -> map cr_name deps = dependency_names.
Proof.
  intros H. unfold check_dependencies in H. simpl in H.
  bind_inv H. injection H as <-.
  repeat match goal with
  | E : check_import _ _ _ _ = Ok _ |- _ =>
      apply check_import_returns_name in E
  | E : check_cdecimal _ = Ok _ |- _ => apply check_cdecimal_name in E
  end.
  simpl. unfold dependency_names. repeat (f_equal; try assumption).
Qed.

Lemma check_dependencies_returns env r_cdecimal rs :
  check_cdecimal env = Ok r_cdecimal ->
  Forall2 (fun c r => run_import env c = Ok r) configured_imports rs ->
  check_dependencies env = Ok (check_python env :: r_cdecimal :: rs).
Proof.
  intros Hc Hall. unfold configured_imports in Hall.
  repeat match goal with
  | H : Forall2 _ (_ :: _) _ |- _ => inversion H; subst; clear H
  | H : Forall2 _ [] _ |- _ => inversion H; subst; clear H
  end.
  unfold run_import in *. unfold check_dependencies. simpl.
  rewrite Hc. simpl.
  repeat match goal with
  | H : check_import _ _ _ _ = Ok _ |- _ => rewrite H; clear H; simpl
  end.
  reflexivity.
Qed.

(** C8: the list [check_dependencies] returns holds the interpreter check,
    the decimal check and the six library checks, one result each, in the
    order in which they are written; it is returned exactly when the
    decimal check and the library checks all return. *)
Theorem check_dependencies_order :
  forall env deps,
    (check_dependencies env = Ok deps <->
       exists r_cdecimal rs,
         check_cdecimal env = Ok r_cdecimal
         /\ Forall2 (fun c r => run_import env c = Ok r) configured_imports rs
         /\ deps = check_python env :: r_cdecimal :: rs)
    /\ (check_dependencies env = Ok deps ->
          map cr_name deps =
            ["python3"; "cdecimal"; "dateutil"; "bottle"; "ply"; "lxml";
             "apiclient"; "oauth2client"]
          /\ List.length deps = 8%nat).
Proof.
  intros env deps. split; [split|].
  - apply check_dependencies_inv.
  - intros (r & rs & Hc & Hall & ->).
    now apply check_dependencies_returns.
  - intros H. apply check_dependencies_names in H.
    split; [exact H|].
    rewrite <- (length_map cr_name), H. reflexivity.
Qed.

Lemma check_dependencies_order_witness :
  check_dependencies (with_module "bottle" (installed "0.12") bare_env)
    = Ok [("python3", Some "3.3.0", true);
          ("cdecimal", Some "1.70 (built-in)", true);
          ("dateutil", None, false); ("bottle", Some "0.12", true);
          ("ply", None, false); ("lxml", None, false);
          ("apiclient", None, false); ("oauth2client", None, false)]
  /\ map cr_name
       [("python3", Some "3.3.0", true);
        ("cdecimal", Some "1.70 (built-in)", true);
        ("dateutil", None, false); ("bottle", Some "0.12", true);
        ("ply", None, false); ("lxml", None, false);
        ("apiclient", None, false); ("oauth2client", None, false)]
     = ["python3"; "cdecimal"; "dateutil"; "bottle"; "ply"; "lxml";
        "apiclient"; "oauth2client"].
Proof.
  split; [reflexivity|].
  apply (proj2 (check_dependencies_order
                  (with_module "bottle" (installed "0.12") bare_env) _)).
  reflexivity.
Defined.

(** ** Which failures are caught *)

(** C1, as stated, fails: a module that loads but has no [__version__]
    makes [check_import] raise AttributeError, an import that raises
    something other than ImportError lets that exception through, and
    [check_dependencies] raises with them. *)
Lemma check_import_propagates_counterexample :
  check_import
      (with_module "dateutil" (unreadable_version AttributeError) bare_env)
      "dateutil" None None
    = Raise AttributeError
  /\ check_dependencies
       (with_module "dateutil" (unreadable_version AttributeError) bare_env)
     = Raise AttributeError
  /\ check_import (with_module "bottle" (Fails SyntaxError) bare_env)
       "bottle" None None
     = Raise SyntaxError
  /\ check_dependencies (with_module "bottle" (Fails SyntaxError) bare_env)
     = Raise SyntaxError.
Proof. repeat split. Qed.

(** C1, amended: [check_import] catches ImportError and its subclasses,
    and only those.  When the import of the module or the read of its
    [__version__] raises one of them, the result is
    (package_name, None, False), and no ImportError leaves the function.
    Any other exception raised by the import or by the read of
    [__version__] (AttributeError when the module has no such attribute)
    and a [__version__] that is not a string (AssertionError) are raised
    to the caller, and [check_dependencies] raises when one of its
    [check_import] calls does. *)
Theorem check_import_catches_ImportError :
  forall env package_name min_version module_name,
    let outcome := import_module env (imported_name package_name module_name) in
    let call := check_import env package_name min_version module_name in
    (forall e, outcome = Fails e -> is_ImportError e = true ->
       call = Ok (package_name, None, false))
    /\ (forall m, outcome = Loaded m -> mod_version m = None ->
          is_ImportError (mod_version_error m) = true ->
          call = Ok (package_name, None, false))
    /\ (forall e, call = Raise e -> is_ImportError e = false)
    /\ (forall e, outcome = Fails e -> is_ImportError e = false ->
          call = Raise e)
    /\ (forall m, outcome = Loaded m -> mod_version m = None ->
          is_ImportError (mod_version_error m) = false ->
          call = Raise (mod_version_error m))
    /\ (forall m, outcome = Loaded m -> mod_version m = Some PyNotStr ->
          call = Raise AssertionError)
    /\ (forall e, In (package_name, min_version, module_name) configured_imports ->
          call = Raise e -> exists e', check_dependencies env = Raise e').
Proof.
  intros env package_name min_version module_name outcome call.
  subst outcome call. rewrite check_import_cases.
  repeat split.
  - intros e -> ->. reflexivity.
  - intros m -> -> ->. reflexivity.
  - intros e. destruct (import_module env _) as [[[[v|]|] err]|e0];
      try discriminate.
    + intros H. injection H as <-. reflexivity.
    + simpl. destruct (is_ImportError err) eqn:He0; [discriminate|].
      intros H. injection H as <-. assumption.
    + destruct (is_ImportError e0) eqn:He0; [discriminate|].
      intros H. injection H as <-. assumption.
  - intros e -> ->. reflexivity.
  - intros m -> -> ->. reflexivity.
  - intros m -> ->. reflexivity.
  - intros e Hin Hraise. rewrite <- check_import_cases in Hraise.
    eapply check_dependencies_raises; [exact Hin | exact Hraise].
Qed.

Lemma check_import_catches_ImportError_witness :
  check_import
      (with_module "lxml.etree" (Fails ModuleNotFoundError) bare_env)
      "lxml" (Some "3") (Some "lxml.etree")
    = Ok ("lxml", None, false)
  /\ check_import
       (with_module "apiclient" (unreadable_version ImportError) bare_env)
       "apiclient" None None
     = Ok ("apiclient", None, false)
  /\ check_import
       (with_module "dateutil" (unreadable_version AttributeError) bare_env)
       "dateutil" None None
     = Raise AttributeError
  /\ check_import (with_module "bottle" (Fails SyntaxError) bare_env)
       "bottle" None None
     = Raise SyntaxError
  /\ exists e',
       check_dependencies (with_module "bottle" (Fails SyntaxError) bare_env)
         = Raise e'.
Proof.
  split; [|split; [|split; [|split]]].
  - apply (proj1 (check_import_catches_ImportError
                    (with_module "lxml.etree" (Fails ModuleNotFoundError) bare_env)
                    "lxml" (Some "3") (Some "lxml.etree"))
             ModuleNotFoundError); reflexivity.
  - apply (proj1 (proj2 (check_import_catches_ImportError
                    (with_module "apiclient" (unreadable_version ImportError)
                       bare_env)
                    "apiclient" None None))
             {| mod_version := None; mod_version_error := ImportError |});
      reflexivity.
  - apply (proj1 (proj2 (proj2 (proj2 (proj2 (check_import_catches_ImportError
                    (with_module "dateutil" (unreadable_version AttributeError)
                       bare_env)
                    "dateutil" None None)))))
             {| mod_version := None; mod_version_error := AttributeError |});
      reflexivity.
  - apply (proj1 (proj2 (proj2 (proj2 (check_import_catches_ImportError
                    (with_module "bottle" (Fails SyntaxError) bare_env)
                    "bottle" None None))))
             SyntaxError); reflexivity.
  - apply (proj2 (proj2 (proj2 (proj2 (proj2 (proj2
             (check_import_catches_ImportError
                    (with_module "bottle" (Fails SyntaxError) bare_env)
                    "bottle" None None))))))
             SyntaxError).
    + simpl. auto.
    + reflexivity.
Defined.

(** ** The decimal check *)

Lemma ImportError_not_AttributeError (e : exn) :
  is_ImportError e = true -> is_AttributeError e = false.
Proof. destruct e; simpl; congruence. Qed.

(** C6, as stated, fails in its last stage: with a decimal module written
    in Python, an import of cdecimal that raises something other than
    ImportError, or a cdecimal package without a [Decimal] class, makes
    [check_cdecimal] raise instead of returning. *)
Lemma check_cdecimal_raises_counterexample :
  is_fast_decimal (stdlib_decimal (with_slow_decimal (Fails SyntaxError) bare_env))
    = Ok false
  /\ import_cdecimal (with_slow_decimal (Fails SyntaxError) bare_env)
     = Fails SyntaxError
  /\ check_cdecimal (with_slow_decimal (Fails SyntaxError) bare_env)
     = Raise SyntaxError
  /\ check_cdecimal (with_slow_decimal (Fails SyntaxError) bare_env)
     <> Ok ("cdecimal", None, false)
  /\ check_cdecimal
       (with_slow_decimal
          (decimal_package (Ok (Some "2.3")) (Raise AttributeError)) bare_env)
     = Raise AttributeError.
Proof. repeat split. discriminate. Qed.

(** C6, amended: [check_cdecimal] tries the built-in decimal module first
    and reports its version with (built-in); failing that it tries the
    cdecimal package and, when its [sqrt] is native, reports its version,
    or OKAY when it has no version attribute; failing that, when the
    package has a [sqrt] that is not native, or when the import of
    cdecimal or the inspection of the package raised ImportError, it
    returns (cdecimal, None, False).  Any other exception raised by the
    import or by the inspection of the package is not caught. *)
Theorem check_cdecimal_policy :
  forall env,
    (is_fast_decimal (stdlib_decimal env) = Ok true ->
       check_cdecimal env
         = Ok ("cdecimal", Some (decimal_version env ++ " (built-in)"), true))
    /\ (is_fast_decimal (stdlib_decimal env) = Ok false ->
        forall cdecimal,
          import_cdecimal env = Loaded cdecimal ->
          is_fast_decimal cdecimal = Ok true ->
          (forall v, dec_version cdecimal = Ok v ->
             check_cdecimal env = Ok ("cdecimal", v, true))
          /\ (forall e, dec_version cdecimal = Raise e ->
                is_AttributeError e = true ->
                check_cdecimal env = Ok ("cdecimal", Some "OKAY", true)))
    /\ (is_fast_decimal (stdlib_decimal env) = Ok false ->
        (exists cdecimal, import_cdecimal env = Loaded cdecimal
                          /\ is_fast_decimal cdecimal = Ok false)
        \/ (exists e, import_cdecimal env = Fails e /\ is_ImportError e = true)
        \/ (exists cdecimal e, import_cdecimal env = Loaded cdecimal
                               /\ is_fast_decimal cdecimal = Raise e
                               /\ is_ImportError e = true)
        \/ (exists cdecimal e, import_cdecimal env = Loaded cdecimal
                               /\ is_fast_decimal cdecimal = Ok true
                               /\ dec_version cdecimal = Raise e
                               /\ is_ImportError e = true) ->
        check_cdecimal env = Ok ("cdecimal", None, false))
    /\ (is_fast_decimal (stdlib_decimal env) = Ok false ->
        forall e,
          is_ImportError e = false ->
          import_cdecimal env = Fails e
          \/ (exists cdecimal, import_cdecimal env = Loaded cdecimal
                               /\ is_fast_decimal cdecimal = Raise e)
          \/ (exists cdecimal, import_cdecimal env = Loaded cdecimal
                               /\ is_fast_decimal cdecimal = Ok true
                               /\ dec_version cdecimal = Raise e
                               /\ is_AttributeError e = false) ->
          check_cdecimal env = Raise e).
Proof.
  intros env. rewrite check_cdecimal_cases, is_fast_stdlib_decimal.
  unfold is_fast_decimal.
  destruct (decimal_sqrt env).
  { split; [reflexivity | repeat split; discriminate]. }
  split; [discriminate|]. split; [|split].
  - intros _ m -> Hfast.
    destruct (dec_sqrt m) as [[|]|]; try discriminate. split.
    + intros v ->. reflexivity.
    + intros e -> He. now rewrite He.
  - intros _ [(m & -> & H) | [(e & -> & He) | [(m & e & -> & H & He)
                                              | (m & e & -> & H & -> & He)]]].
    + destruct (dec_sqrt m) as [[|]|]; try discriminate. reflexivity.
    + now rewrite He.
    + destruct (dec_sqrt m) as [[|]|]; try discriminate.
      simpl in H. injection H as ->. now rewrite He.
    + destruct (dec_sqrt m) as [[|]|]; try discriminate.
      now rewrite (ImportError_not_AttributeError e He), He.
  - intros _ e He [-> | [(m & -> & H) | (m & -> & H & -> & Ha)]].
    + now rewrite He.
    + destruct (dec_sqrt m) as [[|]|]; try discriminate.
      simpl in H. injection H as ->. now rewrite He.
    + destruct (dec_sqrt m) as [[|]|]; try discriminate.
      now rewrite Ha, He.
Qed.

Lemma check_cdecimal_policy_witness :
  check_cdecimal bare_env = Ok ("cdecimal", Some "1.70 (built-in)", true)
  /\ check_cdecimal
       (with_slow_decimal
          (decimal_package (Ok (Some "2.3")) (Ok BuiltinFunctionType)) bare_env)
     = Ok ("cdecimal", Some "2.3", true)
  /\ check_cdecimal
       (with_slow_decimal
          (decimal_package (Raise AttributeError) (Ok BuiltinFunctionType))
          bare_env)
     = Ok ("cdecimal", Some "OKAY", true)
  /\ check_cdecimal (with_slow_decimal (Fails ImportError) bare_env)
     = Ok ("cdecimal", None, false)
  /\ check_cdecimal
       (with_slow_decimal
          (decimal_package (Ok (Some "2.3")) (Ok MethodType)) bare_env)
     = Ok ("cdecimal", None, false)
  /\ check_cdecimal
       (with_slow_decimal
          (decimal_package (Ok (Some "2.3")) (Raise AttributeError)) bare_env)
     = Raise AttributeError.
Proof.
  split; [|split; [|split; [|split; [|split]]]].
  - apply (proj1 (check_cdecimal_policy bare_env)). reflexivity.
  - apply (proj1 (proj1 (proj2 (check_cdecimal_policy
      (with_slow_decimal
         (decimal_package (Ok (Some "2.3")) (Ok BuiltinFunctionType)) bare_env)))
      eq_refl _ eq_refl eq_refl)).
    reflexivity.
  - apply (proj2 (proj1 (proj2 (check_cdecimal_policy
      (with_slow_decimal
         (decimal_package (Raise AttributeError) (Ok BuiltinFunctionType))
         bare_env)))
      eq_refl _ eq_refl eq_refl) AttributeError); reflexivity.
  - apply (proj1 (proj2 (proj2 (check_cdecimal_policy
      (with_slow_decimal (Fails ImportError) bare_env))))
      eq_refl).
    right. left. exists ImportError. split; reflexivity.
  - apply (proj1 (proj2 (proj2 (check_cdecimal_policy
      (with_slow_decimal
         (decimal_package (Ok (Some "2.3")) (Ok MethodType)) bare_env))))
      eq_refl).
    left. eexists. split; reflexivity.
  - apply (proj2 (proj2 (proj2 (check_cdecimal_policy
      (with_slow_decimal
         (decimal_package (Ok (Some "2.3")) (Raise AttributeError)) bare_env))))
      eq_refl AttributeError eq_refl).
    right. left. eexists. split; reflexivity.
Defined.

(** ** The invariant of a result *)

Lemma check_import_absent_insufficient env package_name min_version module_name r :
  check_import env package_name min_version module_name = Ok r ->
  absent_insufficient r.
Proof.
  rewrite check_import_cases. unfold absent_insufficient.
  destruct (import_module env _) as [[[[v|]|] err]|e]; try discriminate.
  - intros H. injection H as <-. discriminate.
  - simpl. destruct (is_ImportError err); [|discriminate].
    intros H. injection H as <-. reflexivity.
  - destruct (is_ImportError e); [|discriminate].
    intros H. injection H as <-. reflexivity.
Qed.

(** The one way for [check_cdecimal] to return a version of None judged
    sufficient: a cdecimal package with a native [sqrt] whose
    [__version__] is None. *)
Lemma check_cdecimal_absent_sufficient env r :
  check_cdecimal env = Ok r ->
  cr_version r = None -> cr_sufficient r = true ->
  exists cdecimal,
    import_cdecimal env = Loaded cdecimal
    /\ is_fast_decimal cdecimal = Ok true
    /\ dec_version cdecimal = Ok None.
Proof.
  rewrite check_cdecimal_cases.
  destruct (decimal_sqrt env).
  { intros H. injection H as <-. discriminate. }
  destruct (import_cdecimal env) as [m|e].
  - unfold is_fast_decimal.
    destruct (dec_sqrt m) as [[|]|e] eqn:Hs.
    + destruct (dec_version m) as [v|e] eqn:Hv.
      * intros H. injection H as <-. unfold cr_version. simpl.
        intros Hnone _. subst v. exists m.
        split; [reflexivity|]. split; [now rewrite Hs | exact Hv].
      * destruct (is_AttributeError e); [intros H; injection H as <-; discriminate|].
        destruct (is_ImportError e); [|discriminate].
        intros H. injection H as <-. discriminate.
    + intros H. injection H as <-. discriminate.
    + destruct (is_ImportError e); [|discriminate].
      intros H. injection H as <-. discriminate.
  - destruct (is_ImportError e); [|discriminate].
    intros H. injection H as <-. discriminate.
Qed.

(** C2 does not hold of the code: [check_cdecimal] hands on whatever
    [getattr(cdecimal, '__version__', 'OKAY')] gives, with True.  With a
    decimal module written in Python and a cdecimal package that has a
    native [sqrt] and a [__version__] of None, it returns
    (cdecimal, None, True), and so does [check_dependencies] in its
    list. *)
Theorem cdecimal_absent_version_sufficient :
  check_cdecimal
      (with_slow_decimal
         (decimal_package (Ok None) (Ok BuiltinFunctionType)) bare_env)
    = Ok ("cdecimal", None, true)
  /\ check_dependencies
       (with_slow_decimal
          (decimal_package (Ok None) (Ok BuiltinFunctionType)) bare_env)
     = Ok [("python3", Some "3.3.0", true); ("cdecimal", None, true);
           ("dateutil", None, false); ("bottle", None, false);
           ("ply", None, false); ("lxml", None, false);
           ("apiclient", None, false); ("oauth2client", None, false)]
  /\ ~ absent_insufficient ("cdecimal", None, true).
Proof.
  split; [reflexivity|]. split; [reflexivity|].
  unfold absent_insufficient. simpl. intros H.
  specialize (H eq_refl). discriminate.
Qed.

(** ** The report *)

Lemma app_assoc_string (a b c : string) : (a ++ b) ++ c = a ++ b ++ c.
Proof. induction a as [|x a IH]; simpl; [reflexivity | now rewrite IH]. Qed.

Lemma for_each_print (deps : list CheckResult) (file : file_object) (out : output) :
  for_each deps (fun '(package, version, sufficient) =>
      print (format_line package (version_field version)
               (insufficient_field version sufficient)) file) out
  = (List.app out (map (fun r => (file, printed_line r)) deps), Ok tt).
Proof.
  revert out. induction deps as [|[[p v] s] deps IH]; intros out; simpl.
  - unfold io_lift. now rewrite app_nil_r.
  - unfold io_bind, print at 1. rewrite IH.
    now rewrite <- List.app_assoc.
Qed.

(** Everything [list_dependencies] prints and how it ends. *)
Lemma list_dependencies_run env file :
  list_dependencies env file [] =
    match check_dependencies env with
    | Ok deps =>
        ((sys_stdout, "Dependencies:" ++ newline)
           :: map (fun r => (file_or_default file, printed_line r)) deps,
         Ok tt)
    | Raise e => ([(sys_stdout, "Dependencies:" ++ newline)], Raise e)
    end.
Proof.
  unfold list_dependencies, io_bind, io_lift, print at 1. simpl.
  destruct (check_dependencies env) as [deps|e]; [|reflexivity].
  rewrite for_each_print. destruct file; reflexivity.
Qed.

(** C4 does not hold of the code: whatever [file] is, the header line is
    printed on [sys.stdout]; only the dependency lines go to [file]. *)
Theorem list_dependencies_header_on_stdout :
  forall env file,
    hd_error (printed (list_dependencies env file))
      = Some (sys_stdout, "Dependencies:" ++ newline)
    /\ printed (list_dependencies bare_env (Some (open_file 3)))
       = [(sys_stdout, "Dependencies:" ++ newline);
          (open_file 3, "   python3         : 3.3.0 " ++ newline);
          (open_file 3, "   cdecimal        : 1.70 (built-in) " ++ newline);
          (open_file 3, "   dateutil        : NOT INSTALLED " ++ newline);
          (open_file 3, "   bottle          : NOT INSTALLED " ++ newline);
          (open_file 3, "   ply             : NOT INSTALLED " ++ newline);
          (open_file 3, "   lxml            : NOT INSTALLED " ++ newline);
          (open_file 3, "   apiclient       : NOT INSTALLED " ++ newline);
          (open_file 3, "   oauth2client    : NOT INSTALLED " ++ newline)].
Proof.
  intros env file. split; [|reflexivity].
  unfold printed. rewrite list_dependencies_run.
  destruct (check_dependencies env); reflexivity.
Qed.

Lemma truthy_false_iff (version : option string) :
  Py.truthy version = false <-> version = None \/ version = Some "".
Proof.
  destruct version as [[|c v]|]; simpl; split; auto; try discriminate.
  intros [H|H]; discriminate.
Qed.

Lemma printed_line_report_line (r : CheckResult) :
  exists line, printed_line r = line ++ newline /\ report_line r line.
Proof.
  destruct r as [[name version] sufficient].
  unfold printed_line, format_line, version_field, insufficient_field.
  destruct version as [[|c v]|]; simpl Py.or_else; simpl Py.truthy;
    cbv beta iota.
  - eexists. split; [|apply line_not_installed; right; reflexivity].
    unfold name_column, Py.format_width.
    simpl andb. cbv iota. now rewrite !app_assoc_string.
  - destruct sufficient; simpl andb; cbv iota.
    + eexists. split; [|apply line_sufficient; discriminate].
      unfold name_column, Py.format_width. now rewrite !app_assoc_string.
    + eexists. split; [|apply line_insufficient; discriminate].
      unfold name_column, Py.format_width. now rewrite !app_assoc_string.
  - eexists. split; [|apply line_not_installed; left; reflexivity].
    unfold name_column, Py.format_width.
    simpl andb. cbv iota. now rewrite !app_assoc_string.
Qed.

(** C7, as stated, fails: a module whose [__version__] is the empty string
    gives a result with a version and with sufficient False (here the
    floor of lxml is "3"), and its line shows NOT INSTALLED and no
    (INSUFFICIENT). *)
Lemma list_dependencies_empty_version_counterexample :
  check_dependencies (with_module "lxml.etree" (installed "") bare_env)
    = Ok [("python3", Some "3.3.0", true);
          ("cdecimal", Some "1.70 (built-in)", true);
          ("dateutil", None, false); ("bottle", None, false);
          ("ply", None, false); ("lxml", Some "", false);
          ("apiclient", None, false); ("oauth2client", None, false)]
  /\ nth_error
       (printed (list_dependencies
                   (with_module "lxml.etree" (installed "") bare_env) None))
       6
     = Some (sys_stderr, "   lxml            : NOT INSTALLED " ++ newline)
  /\ contains "(INSUFFICIENT)"
       ("   lxml            : NOT INSTALLED " ++ newline) = false.
Proof. repeat split. Qed.

(** C7, amended: after the header, [list_dependencies] prints one line
    per result of [check_dependencies], in order, on the given file.  A
    line holds the package name filled with spaces to 16 characters, then
    the version, or NOT INSTALLED when the version is None or the empty
    string, then (INSUFFICIENT) exactly when the version is a non-empty
    string and the result is not sufficient. *)
Theorem list_dependencies_lines :
  forall env file deps,
    check_dependencies env = Ok deps ->
    returned (list_dependencies env file) = Ok tt
    /\ exists lines,
         printed (list_dependencies env file)
           = (sys_stdout, "Dependencies:" ++ newline)
               :: map (fun line => (file_or_default file, line ++ newline)) lines
         /\ Forall2 report_line deps lines
         /\ Forall (fun r =>
              String.length
                (cr_name r ++ Py.spaces (16 - String.length (cr_name r)))
              = 16%nat) deps.
Proof.
  intros env file deps H.
  unfold returned, printed. rewrite list_dependencies_run, H. simpl.
  split; [reflexivity|].
  assert (Hlines : exists lines,
            map printed_line deps = map (fun l => l ++ newline) lines
            /\ Forall2 report_line deps lines).
  { clear H. induction deps as [|r deps IH].
    - exists []. split; constructor.
    - destruct IH as (lines & Hmap & Hall).
      destruct (printed_line_report_line r) as (line & Hline & Hrep).
      exists (line :: lines). split.
      + simpl. now rewrite Hline, Hmap.
      + now constructor. }
  destruct Hlines as (lines & Hmap & Hall).
  exists lines. split; [|split].
  - f_equal. rewrite <- (map_map printed_line (fun t => (file_or_default file, t))).
    rewrite Hmap, map_map. reflexivity.
  - exact Hall.
  - apply check_dependencies_names in H.
    assert (Hin : forall r, In r deps -> In (cr_name r) dependency_names).
    { intros r Hr. rewrite <- H. now apply in_map. }
    apply Forall_forall. intros r Hr. specialize (Hin r Hr).
    unfold dependency_names in Hin. simpl in Hin.
    repeat (destruct Hin as [<- | Hin]; [reflexivity|]).
    contradiction.
Qed.

Lemma list_dependencies_lines_witness :
  printed (list_dependencies
             (with_module "lxml.etree" (installed "2.0") bare_env)
             (Some (open_file 3)))
    = (sys_stdout, "Dependencies:" ++ newline)
        :: map (fun line => (open_file 3, line ++ newline))
             ["   python3         : 3.3.0 ";
              "   cdecimal        : 1.70 (built-in) ";
              "   dateutil        : NOT INSTALLED ";
              "   bottle          : NOT INSTALLED ";
              "   ply             : NOT INSTALLED ";
              "   lxml            : 2.0 (INSUFFICIENT)";
              "   apiclient       : NOT INSTALLED ";
              "   oauth2client    : NOT INSTALLED "]
  /\ returned (list_dependencies
                 (with_module "lxml.etree" (installed "2.0") bare_env)
                 (Some (open_file 3)))
     = Ok tt.
Proof.
  split; [reflexivity|].
  apply (list_dependencies_lines
           (with_module "lxml.etree" (installed "2.0") bare_env)
           (Some (open_file 3))
           [("python3", Some "3.3.0", true);
            ("cdecimal", Some "1.70 (built-in)", true);
            ("dateutil", None, false); ("bottle", None, false);
            ("ply", None, false); ("lxml", Some "2.0", false);
            ("apiclient", None, false); ("oauth2client", None, false)]).
  reflexivity.
Defined.

Lemma insufficient_field_truthy (version : option string) (sufficient : bool) :
  insufficient_field version sufficient = "(INSUFFICIENT)" ->
  Py.truthy version = true.
Proof.
  unfold insufficient_field.
  destruct (Py.truthy version); [reflexivity | discriminate].
Qed.

Lemma printed_line_falsy (name : string) (version : option string)
    (sufficient : bool) :
  Py.truthy version = false ->
  printed_line (name, version, sufficient)
    = "   " ++ Py.format_width 16 name ++ ": NOT INSTALLED " ++ newline.
Proof.
  intros H. unfold printed_line, format_line, version_field, insufficient_field.
  rewrite H. simpl andb. cbv iota.
  assert (Hv : Py.or_else version "NOT INSTALLED" = "NOT INSTALLED").
  { destruct version as [[|c v]|]; [reflexivity | discriminate | reflexivity]. }
  rewrite Hv. simpl. now rewrite !app_assoc_string.
Qed.

Lemma printed_line_truthy (name : string) (c : ascii) (v : string)
    (sufficient : bool) :
  printed_line (name, Some (String c v), sufficient)
  = ("   " ++ Py.format_width 16 name ++ ": ")
      ++ String c v
      ++ " " ++ (if sufficient then "" else "(INSUFFICIENT)") ++ newline.
Proof.
  unfold printed_line, format_line, version_field, insufficient_field.
  simpl Py.or_else. simpl Py.truthy.
  destruct sufficient; simpl andb; cbv iota;
    repeat (progress (rewrite ?app_assoc_string; simpl)); reflexivity.
Qed.

(** A text that starts with an end of the needle cannot be where a
    needle starts that began before it. *)
Lemma prefix_app_inv (needle w text : string) :
  no_overlap needle text = true ->
  String.prefix needle (w ++ text) = true ->
  String.prefix needle w = true.
Proof.
  revert w. induction needle as [|a needle IH]; intros w Hno H.
  - destruct w; reflexivity.
  - simpl in Hno. apply Bool.andb_true_iff in Hno. destruct Hno as [Hhere Hrest].
    destruct w as [|b w].
    + simpl in H. rewrite H in Hhere. discriminate.
    + simpl in *. destruct (ascii_dec a b); [|discriminate]. now apply IH.
Qed.

Lemma contains_cons (needle : string) (c : ascii) (hay : string) :
  contains needle (String c hay)
  = if String.prefix needle (String c hay) then true else contains needle hay.
Proof. reflexivity. Qed.

(** A needle found in [w ++ text] lies in [w] when it neither occurs in
    [text] nor reaches into it. *)
Lemma contains_app_inv (needle w text : string) :
  no_overlap needle text = true ->
  contains needle text = false ->
  contains needle (w ++ text) = true ->
  contains needle w = true.
Proof.
  intros Hno Hout. induction w as [|c w IH]; intros H.
  - simpl in H. congruence.
  - change (String c w ++ text) with (String c (w ++ text)) in H.
    rewrite contains_cons in *.
    destruct (String.prefix needle (String c (w ++ text))) eqn:Hp.
    + change (String c (w ++ text)) with (String c w ++ text) in Hp.
      now rewrite (prefix_app_inv _ _ _ Hno Hp).
    + destruct (String.prefix needle (String c w)); [reflexivity | auto].
Qed.

(** A needle does not start in a text that lacks its first character. *)
Lemma contains_app_lacks (a : ascii) (needle p hay : string) :
  lacks a p = true ->
  contains (String a needle) (p ++ hay) = contains (String a needle) hay.
Proof.
  induction p as [|x p IH]; intros H; [reflexivity|].
  simpl in H. apply Bool.andb_true_iff in H. destruct H as [Hx Hp].
  change (String x p ++ hay) with (String x (p ++ hay)).
  rewrite contains_cons, IH by assumption.
  simpl. destruct (ascii_dec a x) as [->|]; [|reflexivity].
  rewrite Ascii.eqb_refl in Hx. discriminate.
Qed.

(** C9, as stated, fails in its last part: the version of a module is
    printed as it is, so an lxml whose version is "2 NOT INSTALLED",
    below the floor "3", gets a line that holds both NOT INSTALLED and
    (INSUFFICIENT). *)
Lemma both_texts_on_a_line_counterexample :
  nth_error
    (printed (list_dependencies
                (with_module "lxml.etree" (installed "2 NOT INSTALLED") bare_env)
                None))
    6
  = Some (sys_stderr,
          "   lxml            : 2 NOT INSTALLED (INSUFFICIENT)" ++ newline)
  /\ contains "NOT INSTALLED"
       ("   lxml            : 2 NOT INSTALLED (INSUFFICIENT)" ++ newline) = true
  /\ contains "(INSUFFICIENT)"
       ("   lxml            : 2 NOT INSTALLED (INSUFFICIENT)" ++ newline) = true.
Proof. repeat split. Qed.

(** C9, amended: in the output of [list_dependencies] a version that is
    None or the empty string is shown as NOT INSTALLED, and a line holds
    (INSUFFICIENT) only if its version is a non-empty string; so a line
    on which NOT INSTALLED stands for the version never holds
    (INSUFFICIENT), and a line holds both texts only when the version
    string itself contains NOT INSTALLED. *)
Theorem falsy_version_shown_not_installed :
  forall env file deps i name version sufficient,
    check_dependencies env = Ok deps ->
    nth_error deps i = Some (name, version, sufficient) ->
    exists line,
      nth_error (printed (list_dependencies env file)) (S i)
        = Some (file_or_default file, line)
      /\ (version = None \/ version = Some "" ->
            line = "   " ++ Py.format_width 16 name ++ ": NOT INSTALLED " ++ newline
            /\ contains "(INSUFFICIENT)" line = false)
      /\ (contains "(INSUFFICIENT)" line = true ->
            exists v, version = Some v /\ v <> "")
      /\ (insufficient_field version sufficient = "(INSUFFICIENT)" ->
            exists v, version = Some v /\ v <> "" /\ version_field version = v)
      /\ (contains "(INSUFFICIENT)" line = true ->
          contains "NOT INSTALLED" line = true ->
          exists v, version = Some v /\ contains "NOT INSTALLED" v = true).
Proof.
  intros env file deps i name version sufficient H Hnth.
  exists (printed_line (name, version, sufficient)).
  assert (Hin : In name dependency_names).
  { apply check_dependencies_names in H.
    rewrite <- H. change name with (cr_name (name, version, sufficient)).
    apply in_map. eapply nth_error_In. exact Hnth. }
  assert (Hfalsy : version = None \/ version = Some "" ->
            printed_line (name, version, sufficient)
              = "   " ++ Py.format_width 16 name ++ ": NOT INSTALLED " ++ newline
            /\ contains "(INSUFFICIENT)"
                 (printed_line (name, version, sufficient)) = false).
  { intros Hv. apply truthy_false_iff in Hv.
    rewrite (printed_line_falsy name version sufficient Hv).
    split; [reflexivity|].
    unfold dependency_names in Hin. simpl in Hin.
    repeat (destruct Hin as [<- | Hin]; [vm_compute; reflexivity|]).
    contradiction. }
  assert (Htruthy : contains "(INSUFFICIENT)"
                      (printed_line (name, version, sufficient)) = true ->
                    exists v, version = Some v /\ v <> "").
  { intros Hc. destruct version as [[|c v]|].
    - destruct Hfalsy as [_ Hf]; [now right | congruence].
    - exists (String c v). split; [reflexivity | discriminate].
    - destruct Hfalsy as [_ Hf]; [now left | congruence]. }
  split; [|split; [exact Hfalsy|split; [exact Htruthy|split]]].
  - unfold printed. rewrite list_dependencies_run, H. simpl.
    rewrite nth_error_map, Hnth. reflexivity.
  - intros Hs. apply insufficient_field_truthy in Hs.
    destruct version as [[|c v]|]; try discriminate.
    exists (String c v). repeat split. discriminate.
  - intros Hc Hn. destruct (Htruthy Hc) as (v & -> & Hv).
    exists v. split; [reflexivity|].
    destruct v as [|c v]; [congruence|].
    rewrite printed_line_truthy in Hn.
    assert (Hcol : lacks "N" ("   " ++ Py.format_width 16 name ++ ": ") = true).
    { unfold dependency_names in Hin. simpl in Hin.
      repeat (destruct Hin as [<- | Hin]; [vm_compute; reflexivity|]).
      contradiction. }
    rewrite (contains_app_lacks "N" "OT INSTALLED" _ _ Hcol) in Hn.
    apply (contains_app_inv "NOT INSTALLED" (String c v)
             (" " ++ (if sufficient then "" else "(INSUFFICIENT)") ++ newline));
      [destruct sufficient; reflexivity | destruct sufficient; reflexivity
      | exact Hn].
Qed.

Lemma falsy_version_shown_not_installed_witness :
  exists line,
    nth_error
      (printed (list_dependencies
                  (with_module "lxml.etree" (installed "") bare_env) None))
      6
    = Some (sys_stderr, line)
    /\ line = "   lxml            : NOT INSTALLED " ++ newline
    /\ contains "(INSUFFICIENT)" line = false.
Proof.
  destruct (falsy_version_shown_not_installed
              (with_module "lxml.etree" (installed "") bare_env) None
              [("python3", Some "3.3.0", true);
               ("cdecimal", Some "1.70 (built-in)", true);
               ("dateutil", None, false); ("bottle", None, false);
               ("ply", None, false); ("lxml", Some "", false);
               ("apiclient", None, false); ("oauth2client", None, false)]
              5%nat "lxml" (Some "") false eq_refl eq_refl)
    as (line & Hnth & Hfalsy & _).
  exists line. split; [exact Hnth|].
  apply Hfalsy. right. reflexivity.
Defined.

(** ** More on the comparison of versions *)

Lemma lex_le_refl (a : string) : lex_le a a.
Proof. induction a; auto with checkdeps. Qed.

Lemma lex_le_trans (a b c : string) : lex_le a b -> lex_le b c -> lex_le a c.
Proof.
  intros Hab. revert c.
  induction Hab as [s | c1 c2 s1 s2 Hlt | x s1 s2 _ IH]; intros c Hbc.
  - constructor.
  - inversion Hbc; subst.
    + apply lex_le_head. lia.
    + apply lex_le_head. assumption.
  - inversion Hbc; subst; auto with checkdeps.
Qed.

Lemma prefix_lex_le (a b : string) : String.prefix a b = true -> lex_le a b.
Proof.
  revert b. induction a as [|x a IH]; intros b H.
  - constructor.
  - destruct b as [|y b]; simpl in H; [discriminate|].
    destruct (ascii_dec x y) as [->|]; [|discriminate].
    auto with checkdeps.
Qed.

Lemma import_with_module (name : string) (o : import_outcome module)
    (env : environment) :
  import_module (with_module name o env) name = o.
Proof. simpl. now rewrite String.eqb_refl. Qed.

(** X1: a module whose version starts with the minimal version (the
    version itself, or the version followed by anything) is sufficient;
    so is every version when the minimal version is the empty string. *)
Theorem check_import_floor_prefix :
  forall env package_name floor module_name m v,
    import_module env (imported_name package_name module_name) = Loaded m ->
    mod_version m = Some (PyStr v) ->
    String.prefix floor v = true ->
    check_import env package_name (Some floor) module_name
      = Ok (package_name, Some v, true).
Proof.
  intros env package_name floor module_name m v Himp Hver Hpre.
  rewrite check_import_cases, Himp, Hver, sufficient_for_given.
  apply prefix_lex_le, str_ge_lex_le in Hpre. now rewrite Hpre.
Qed.

Lemma check_import_floor_prefix_witness :
  check_import (with_module "lxml.etree" (installed "3.4.0") bare_env)
      "lxml" (Some "3") (Some "lxml.etree")
    = Ok ("lxml", Some "3.4.0", true)
  /\ check_import (with_module "lxml.etree" (installed "3.4.0") bare_env)
       "lxml" (Some "") (Some "lxml.etree")
     = Ok ("lxml", Some "3.4.0", true).
Proof.
  split.
  - apply (check_import_floor_prefix
             (with_module "lxml.etree" (installed "3.4.0") bare_env)
             "lxml" "3" (Some "lxml.etree")
             {| mod_version := Some (PyStr "3.4.0");
               mod_version_error := AttributeError |} "3.4.0");
      reflexivity.
  - apply (check_import_floor_prefix
             (with_module "lxml.etree" (installed "3.4.0") bare_env)
             "lxml" "" (Some "lxml.etree")
             {| mod_version := Some (PyStr "3.4.0");
               mod_version_error := AttributeError |} "3.4.0");
      reflexivity.
Defined.

(** X2: when the version and the minimal version start with different
    characters, these two characters decide and nothing after them is
    looked at: the module is sufficient exactly when the first character
    of its version has the larger code. *)
Theorem check_import_first_character :
  forall env package_name module_name m c v d floor,
    import_module env (imported_name package_name module_name) = Loaded m ->
    mod_version m = Some (PyStr (String c v)) ->
    c <> d ->
    check_import env package_name (Some (String d floor)) module_name
      = Ok (package_name, Some (String c v),
            (N_of_ascii d <? N_of_ascii c)%N).
Proof.
  intros env package_name module_name m c v d floor Himp Hver Hcd.
  rewrite check_import_cases, Himp, Hver, sufficient_for_given.
  unfold Py.str_ge. simpl.
  destruct (N.compare_spec (N_of_ascii c) (N_of_ascii d)) as [E|L|G].
  - apply N_of_ascii_inj in E. contradiction.
  - rewrite (proj2 (N.ltb_ge _ _)); [reflexivity|lia].
  - rewrite (proj2 (N.ltb_lt _ _) G). reflexivity.
Qed.

Lemma check_import_first_character_witness :
  check_import (with_module "lxml.etree" (installed "10.0") bare_env)
      "lxml" (Some "3") (Some "lxml.etree")
    = Ok ("lxml", Some "10.0", false).
Proof.
  apply (check_import_first_character
           (with_module "lxml.etree" (installed "10.0") bare_env)
           "lxml" (Some "lxml.etree")
           {| mod_version := Some (PyStr "10.0");
               mod_version_error := AttributeError |} "1" "0.0" "3" "").
  - reflexivity.
  - reflexivity.
  - discriminate.
Defined.

(** X3: replacing a sufficient version of a module by one that is at
    least as large in the order of strings leaves the module sufficient,
    whatever the minimal version is. *)
Theorem check_import_monotone :
  forall env package_name min_version module_name v1 v2,
    Py.str_ge v2 v1 = true ->
    check_import
        (with_module (imported_name package_name module_name) (installed v1) env)
        package_name min_version module_name
      = Ok (package_name, Some v1, true) ->
    check_import
        (with_module (imported_name package_name module_name) (installed v2) env)
        package_name min_version module_name
      = Ok (package_name, Some v2, true).
Proof.
  intros env package_name min_version module_name v1 v2 Hge.
  rewrite !check_import_cases, !import_with_module. simpl.
  intros H. injection H as H. f_equal. f_equal.
  unfold sufficient_for in *.
  destruct (Py.truthy min_version); [|reflexivity].
  destruct min_version as [floor|]; [|reflexivity].
  apply str_ge_lex_le. apply str_ge_lex_le in H, Hge.
  eapply lex_le_trans; eassumption.
Qed.

Lemma check_import_monotone_witness :
  check_import (with_module "ply.yacc" (installed "3.8") bare_env)
      "ply" (Some "3.4") (Some "ply.yacc")
    = Ok ("ply", Some "3.8", true).
Proof.
  apply (check_import_monotone bare_env "ply" (Some "3.4") (Some "ply.yacc")
           "3.4" "3.8"); reflexivity.
Defined.

(** ** When the checks raise *)

Lemma check_import_ok_iff env package_name min_version module_name :
  (exists r, check_import env package_name min_version module_name = Ok r)
  <-> module_ok env (imported_name package_name module_name) = true.
Proof.
  rewrite check_import_cases. unfold module_ok.
  destruct (import_module env _) as [[[[v|]|] err]|e]; simpl.
  - split; eauto.
  - split; [intros [r H]|]; discriminate.
  - destruct (is_ImportError err); split; eauto;
      [intros [r H]|]; discriminate.
  - destruct (is_ImportError e); split; eauto;
      [intros [r H]|]; discriminate.
Qed.

Lemma check_cdecimal_ok_iff env :
  (exists r, check_cdecimal env = Ok r) <-> cdecimal_ok env = true.
Proof.
  unfold cdecimal_ok. cdecimal_cases; simpl;
    split; eauto; try (intros [r H]); discriminate.
Qed.

Lemma check_import_raise_not_ImportError env package_name min_version
    module_name e :
  check_import env package_name min_version module_name = Raise e ->
  is_ImportError e = false.
Proof.
  rewrite check_import_cases.
  destruct (import_module env _) as [[[[v|]|] err]|e0]; try discriminate.
  - intros H. injection H as <-. reflexivity.
  - simpl. destruct (is_ImportError err) eqn:He0; [discriminate|].
    intros H. injection H as <-. assumption.
  - destruct (is_ImportError e0) eqn:He0; [discriminate|].
    intros H. injection H as <-. assumption.
Qed.

Lemma check_cdecimal_raise_not_ImportError env e :
  check_cdecimal env = Raise e -> is_ImportError e = false.
Proof.
  cdecimal_cases; intros H; try discriminate; injection H as <-; assumption.
Qed.

Lemma check_dependencies_raise_inv env e :
  check_dependencies env = Raise e ->
  check_cdecimal env = Raise e
  \/ exists c, In c configured_imports /\ run_import env c = Raise e.
Proof.
  unfold check_dependencies. simpl.
  destruct (check_cdecimal env); simpl;
    [|intros H; injection H as <-; left; reflexivity].
  intros H. right.
  repeat match type of H with
  | context [bind ?m _] =>
      let E := fresh "E" in
      destruct m eqn:E; simpl in H;
      [| injection H as <-; eexists (_, _, _);
         split; [|exact E]; simpl; auto 10]
  end.
  discriminate.
Qed.

(** X4: [check_import] raises in exactly three cases: the import raised
    an exception that is not an ImportError, the read of [__version__]
    raised an exception that is not an ImportError (AttributeError when
    the module has no such attribute), and in both that exception is
    passed on; or [__version__] is not a string (AssertionError). *)
Theorem check_import_raises_iff :
  forall env package_name min_version module_name e,
    let outcome := import_module env (imported_name package_name module_name) in
    check_import env package_name min_version module_name = Raise e
    <-> (outcome = Fails e /\ is_ImportError e = false)
        \/ (exists m, outcome = Loaded m /\ mod_version m = None
                      /\ mod_version_error m = e
                      /\ is_ImportError e = false)
        \/ (exists m, outcome = Loaded m /\ mod_version m = Some PyNotStr
                      /\ e = AssertionError).
Proof.
  intros env package_name min_version module_name e outcome. subst outcome.
  rewrite check_import_cases. split.
  - destruct (import_module env _) as [[[[v|]|] err]|e0]; simpl.
    + discriminate.
    + intros H. injection H as <-. right. right. eauto.
    + destruct (is_ImportError err) eqn:He0; [discriminate|].
      intros H. injection H as <-. right. left.
      eexists. repeat split. assumption.
    + destruct (is_ImportError e0) eqn:He0; [discriminate|].
      intros H. injection H as <-. left. split; [reflexivity | assumption].
  - intros [[H He]|[(m & H & Hv & <- & He)|(m & H & Hv & ->)]]; rewrite H.
    + now rewrite He.
    + now rewrite Hv, He.
    + now rewrite Hv.
Qed.

(** X5: in a triple returned by [check_import] the version is None
    exactly when the import, or the read of [__version__] after it,
    raised ImportError; it is a string exactly when the module was loaded
    and that string was read from its [__version__]. *)
Theorem check_import_version_iff :
  forall env package_name min_version module_name r,
    check_import env package_name min_version module_name = Ok r ->
    let outcome := import_module env (imported_name package_name module_name) in
    (cr_version r = None
       <-> (exists e, outcome = Fails e /\ is_ImportError e = true)
           \/ (exists m, outcome = Loaded m /\ mod_version m = None
                         /\ is_ImportError (mod_version_error m) = true))
    /\ (forall v, cr_version r = Some v
          <-> exists m, outcome = Loaded m /\ mod_version m = Some (PyStr v)).
Proof.
  intros env package_name min_version module_name r.
  rewrite check_import_cases.
  destruct (import_module env _) as [m|e] eqn:Himp.
  - destruct m as [[[v|]|] err]; simpl; try discriminate.
    + intros H. injection H as <-. simpl. split.
      * split; [discriminate|].
        intros [(e & H & _)|(m & H & Hv & _)]; [discriminate|].
        injection H as <-. discriminate.
      * intros v'. split.
        -- intros H. injection H as <-. eauto.
        -- intros (m & H & Hv). injection H as <-. simpl in Hv.
           injection Hv as ->. reflexivity.
    + destruct (is_ImportError err) eqn:He; [|discriminate].
      intros H. injection H as <-. simpl. split.
      * split; [|reflexivity]. intros _. right. eexists. repeat split.
        exact He.
      * intros v. split; [discriminate|].
        intros (m & H & Hv). injection H as <-. discriminate.
  - destruct (is_ImportError e) eqn:He; [|discriminate].
    intros H. injection H as <-. simpl. split.
    + split; eauto.
    + intros v. split; [discriminate | intros (m & H & _); discriminate].
Qed.

Lemma check_import_version_iff_witness :
  (cr_version ("lxml", @None string, false) = None
     <-> (exists e, import_module bare_env (imported_name "lxml" (Some "lxml.etree"))
                      = Fails e /\ is_ImportError e = true)
         \/ (exists m, import_module bare_env (imported_name "lxml" (Some "lxml.etree"))
                         = Loaded m /\ mod_version m = None
                       /\ is_ImportError (mod_version_error m) = true)).
Proof.
  apply (check_import_version_iff bare_env "lxml" (Some "3") (Some "lxml.etree")
           ("lxml", None, false) eq_refl).
Defined.

(** X6: [check_cdecimal] raises only when the built-in decimal module is
    not fast and an exception that is not an ImportError comes from the
    import of cdecimal, from the inspection of its [Decimal().sqrt], or,
    for a package with a native [sqrt], from the read of its
    [__version__] and is not an AttributeError; it then raises that
    exception. *)
Theorem check_cdecimal_raises_iff :
  forall env e,
    check_cdecimal env = Raise e
    <-> is_fast_decimal (stdlib_decimal env) = Ok false
        /\ is_ImportError e = false
        /\ (import_cdecimal env = Fails e
            \/ (exists m, import_cdecimal env = Loaded m
                          /\ is_fast_decimal m = Raise e)
            \/ (exists m, import_cdecimal env = Loaded m
                          /\ is_fast_decimal m = Ok true
                          /\ dec_version m = Raise e
                          /\ is_AttributeError e = false)).
Proof.
  intros env e. rewrite check_cdecimal_cases, is_fast_stdlib_decimal.
  unfold is_fast_decimal. split.
  - destruct (decimal_sqrt env); [discriminate|].
    destruct (import_cdecimal env) as [m|e0].
    + destruct (dec_sqrt m) as [[|]|e1] eqn:Hs; simpl.
      * destruct (dec_version m) as [v|e1] eqn:Hv; [discriminate|].
        destruct (is_AttributeError e1) eqn:Ha; [discriminate|].
        destruct (is_ImportError e1) eqn:Hi; [discriminate|].
        intros H. injection H as <-.
        split; [reflexivity|]. split; [assumption|].
        right. right. exists m. rewrite Hs. simpl. auto.
      * discriminate.
      * destruct (is_ImportError e1) eqn:Hi; [discriminate|].
        intros H. injection H as <-.
        split; [reflexivity|]. split; [assumption|].
        right. left. exists m. rewrite Hs. auto.
    + destruct (is_ImportError e0) eqn:Hi; [discriminate|].
      intros H. injection H as <-. auto.
  - intros (Hs & He & Hcase).
    destruct (decimal_sqrt env); [discriminate|].
    destruct Hcase as [-> | [(m & -> & Hf) | (m & -> & Hf & Hv & Ha)]].
    + now rewrite He.
    + destruct (dec_sqrt m) as [[|]|e1]; simpl in Hf; try discriminate.
      injection Hf as ->. now rewrite He.
    + destruct (dec_sqrt m) as [[|]|e1]; simpl in Hf; try discriminate.
      now rewrite Hv, Ha, He.
Qed.

(** X7: [check_dependencies] raises the exception of the first check,
    in the order of the list, that raises; it raises nothing when none
    does. *)
Theorem check_dependencies_first_raise :
  forall env e,
    check_dependencies env = Raise e
    <-> first_raise (check_cdecimal env :: map (run_import env) configured_imports)
        = Some e.
Proof.
  intros env e.
  unfold check_dependencies, configured_imports, run_import. simpl.
  repeat match goal with
  | |- context [bind ?m _] => destruct m; simpl
  end;
  split; intros H; try discriminate; injection H as <-; reflexivity.
Qed.

(** X8: no ImportError ever leaves [check_dependencies] or
    [list_dependencies]. *)
Theorem check_dependencies_no_ImportError :
  forall env e,
    (check_dependencies env = Raise e -> is_ImportError e = false)
    /\ (forall file,
          returned (list_dependencies env file) = Raise e ->
          is_ImportError e = false).
Proof.
  intros env e.
  assert (H : check_dependencies env = Raise e -> is_ImportError e = false).
  { intros H. apply check_dependencies_raise_inv in H.
    destruct H as [H | ([[p mv] mn] & _ & H)].
    - eapply check_cdecimal_raise_not_ImportError. exact H.
    - eapply check_import_raise_not_ImportError. exact H. }
  split; [exact H|].
  intros file. unfold returned. rewrite list_dependencies_run.
  destruct (check_dependencies env) as [deps|e0]; simpl; [discriminate|].
  intros E. injection E as ->. now apply H.
Qed.

Lemma check_dependencies_no_ImportError_witness :
  is_ImportError SyntaxError = false.
Proof.
  apply (proj1 (check_dependencies_no_ImportError
                  (with_module "bottle" (Fails SyntaxError) bare_env)
                  SyntaxError)).
  reflexivity.
Defined.

(** X9: [check_dependencies] returns a list exactly when cdecimal and
    each of the six modules it imports is either loaded with a version
    string or missing with an ImportError (cdecimal may lack a version and
    is not looked at when the built-in decimal module is fast). *)
Theorem check_dependencies_returns_iff :
  forall env,
    (exists deps, check_dependencies env = Ok deps)
    <-> cdecimal_ok env = true
        /\ forallb (module_ok env) probed_modules = true.
Proof.
  intros env. split.
  - intros [deps H]. apply check_dependencies_inv in H.
    destruct H as (r & rs & Hc & Hall & _). split.
    + apply check_cdecimal_ok_iff. eauto.
    + unfold configured_imports in Hall.
      repeat match goal with
      | H : Forall2 _ (_ :: _) _ |- _ => inversion H; subst; clear H
      | H : Forall2 _ [] _ |- _ => clear H
      end.
      repeat match goal with
      | H : run_import env (?p, ?mv, ?mn) = Ok ?r |- _ =>
          assert (module_ok env (imported_name p mn) = true)
            by (apply (check_import_ok_iff env p mv mn); exists r; exact H);
          clear H
      end.
      simpl in *.
      repeat match goal with
      | H : module_ok env _ = true |- _ => rewrite H; clear H
      end.
      reflexivity.
  - intros [Hc Hm]. apply check_cdecimal_ok_iff in Hc. destruct Hc as [r Hc].
    simpl in Hm. rewrite !Bool.andb_true_iff in Hm.
    destruct Hm as (H1 & H2 & H3 & H4 & H5 & H6 & _).
    apply (check_import_ok_iff env "dateutil" None None) in H1.
    apply (check_import_ok_iff env "bottle" None None) in H2.
    apply (check_import_ok_iff env "ply" (Some "3.4") (Some "ply.yacc")) in H3.
    apply (check_import_ok_iff env "lxml" (Some "3") (Some "lxml.etree")) in H4.
    apply (check_import_ok_iff env "apiclient" None None) in H5.
    apply (check_import_ok_iff env "oauth2client" None None) in H6.
    destruct H1 as [r1 H1], H2 as [r2 H2], H3 as [r3 H3], H4 as [r4 H4],
             H5 as [r5 H5], H6 as [r6 H6].
    eexists. apply (check_dependencies_returns env r [r1; r2; r3; r4; r5; r6]);
      [exact Hc|].
    unfold configured_imports. repeat constructor; assumption.
Qed.

(** X10: when a check raises, [list_dependencies] has already printed the
    header on [sys.stdout]; it prints nothing else and raises the same
    exception. *)
Theorem list_dependencies_partial_output :
  forall env file e,
    check_dependencies env = Raise e ->
    printed (list_dependencies env file)
      = [(sys_stdout, "Dependencies:" ++ newline)]
    /\ returned (list_dependencies env file) = Raise e.
Proof.
  intros env file e H. unfold printed, returned.
  rewrite list_dependencies_run, H. split; reflexivity.
Qed.

Lemma list_dependencies_partial_output_witness :
  printed (list_dependencies
             (with_module "bottle" (Fails SyntaxError) bare_env)
             (Some (open_file 3)))
    = [(sys_stdout, "Dependencies:" ++ newline)]
  /\ returned (list_dependencies
                 (with_module "bottle" (Fails SyntaxError) bare_env)
                 (Some (open_file 3)))
     = Raise SyntaxError.
Proof.
  apply (list_dependencies_partial_output
           (with_module "bottle" (Fails SyntaxError) bare_env)
           (Some (open_file 3)) SyntaxError).
  reflexivity.
Defined.

(** X11: [list_dependencies] prints on [sys.stdout] and on the given
    file and nowhere else, and the texts it prints do not depend on the
    file. *)
Theorem list_dependencies_streams :
  forall env file,
    Forall (fun ev => fst ev = sys_stdout \/ fst ev = file_or_default file)
      (printed (list_dependencies env file))
    /\ forall file',
         map snd (printed (list_dependencies env file))
         = map snd (printed (list_dependencies env file')).
Proof.
  intros env file. unfold printed. split.
  - rewrite list_dependencies_run.
    destruct (check_dependencies env) as [deps|e]; simpl.
    + constructor; [now left|].
      apply Forall_forall. intros ev Hin. apply in_map_iff in Hin.
      destruct Hin as (r & <- & _). now right.
    + constructor; [now left | constructor].
  - intros file'. rewrite !list_dependencies_run.
    destruct (check_dependencies env) as [deps|e]; simpl; [|reflexivity].
    f_equal. rewrite !map_map. reflexivity.
Qed.

(** ** The interpreter's version *)

Lemma to_int_proper (z : Z) :
  Z.to_int z <> Decimal.Pos Decimal.Nil /\ Z.to_int z <> Decimal.Neg Decimal.Nil.
Proof.
  destruct z as [|p|p]; simpl; split; try discriminate;
    intros H; injection H as H;
    exact (DecimalPos.Unsigned.to_uint_nonnil p H).
Qed.

(** The number is read back from its decimal writing. *)
Lemma str_parse (z : Z) :
  option_map Z.of_int (NilZero.int_of_string (Py.str z)) = Some z.
Proof.
  unfold Py.str. destruct (to_int_proper z) as [Hp Hn].
  rewrite (NilZero.isi _ Hp Hn). simpl. now rewrite DecimalZ.of_to.
Qed.

Lemma str_inj (a b : Z) : Py.str a = Py.str b -> a = b.
Proof.
  intros H. pose proof (str_parse a) as Ha. rewrite H, str_parse in Ha.
  now injection Ha.
Qed.

Lemma uint_no_dot (d : Decimal.uint) :
  ~ In "."%char (list_ascii_of_string (NilEmpty.string_of_uint d)).
Proof.
  induction d; simpl; [intros [] | ..];
    (intros [H|H]; [discriminate H | auto]).
Qed.

Lemma str_no_dot (z : Z) : ~ In "."%char (list_ascii_of_string (Py.str z)).
Proof.
  unfold Py.str, NilZero.string_of_int, NilZero.string_of_uint.
  destruct (Z.to_int z) as [d|d].
  - destruct d; try apply uint_no_dot.
    simpl. intros [H|[]]. discriminate H.
  - simpl. intros [H|H]; [discriminate H|]. revert H.
    destruct d; try apply uint_no_dot.
    simpl. intros [H|[]]. discriminate H.
Qed.

(** A text is cut at its first dot in one way only. *)
Lemma cut_at_dot (a a' r r' : string) :
  ~ In "."%char (list_ascii_of_string a) ->
  ~ In "."%char (list_ascii_of_string a') ->
  a ++ String "." r = a' ++ String "." r' ->
  a = a' /\ r = r'.
Proof.
  revert a'. induction a as [|x a IH]; intros [|y a'] Ha Ha' H; simpl in *.
  - injection H as ->. auto.
  - injection H as <- _. exfalso. apply Ha'. now left.
  - injection H as -> _. exfalso. apply Ha. now left.
  - injection H as -> H. destruct (IH a') as [-> ->]; auto.
Qed.

(** X13: an interpreter that is sufficient stays sufficient when its
    (major, minor) pair grows; the micro number, the release level and
    the serial play no part. *)
Theorem check_python_monotone :
  forall env env',
    Py.tuple_ge (version_info_slice2 (version_info env'))
                (version_info_slice2 (version_info env)) = true ->
    cr_sufficient (check_python env) = true ->
    cr_sufficient (check_python env') = true.
Proof.
  intros env env'. unfold cr_sufficient, check_python, version_info_slice2.
  simpl. rewrite !tuple_ge_pair. lia.
Qed.

Lemma check_python_monotone_witness :
  cr_sufficient (check_python (with_version_info (release 3 10 1) bare_env))
    = true.
Proof.
  apply (check_python_monotone bare_env
           (with_version_info (release 3 10 1) bare_env));
    reflexivity.
Defined.

(** X14: the version string reported by [check_python] determines the
    three numbers it was made of: interpreters with different
    major, minor or micro numbers are never reported alike. *)
Theorem check_python_version_injective :
  forall env env',
    cr_version (check_python env) = cr_version (check_python env') ->
    major (version_info env) = major (version_info env')
    /\ minor (version_info env) = minor (version_info env')
    /\ micro (version_info env) = micro (version_info env').
Proof.
  intros env env'. unfold cr_version, check_python, version_info_slice3.
  simpl. intros H. injection H as H.
  apply cut_at_dot in H; try apply str_no_dot. destruct H as [H1 H].
  apply cut_at_dot in H; try apply str_no_dot. destruct H as [H2 H3].
  auto using str_inj.
Qed.

Lemma check_python_version_injective_witness :
  major (version_info bare_env)
    = major (version_info (with_slow_decimal (Fails ImportError) bare_env))
  /\ minor (version_info bare_env)
     = minor (version_info (with_slow_decimal (Fails ImportError) bare_env))
  /\ micro (version_info bare_env)
     = micro (version_info (with_slow_decimal (Fails ImportError) bare_env)).
Proof.
  apply (check_python_version_injective bare_env
           (with_slow_decimal (Fails ImportError) bare_env)).
  reflexivity.
Defined.

(** X15: the line of python3 always shows the interpreter's version,
    never NOT INSTALLED, and ends in (INSUFFICIENT) exactly when
    (major, minor) is below (3, 3). *)
Theorem python3_line :
  forall env,
    let v := version_info env in
    printed_line (check_python env)
    = "   python3         : "
        ++ Py.str (major v) ++ "." ++ Py.str (minor v) ++ "." ++ Py.str (micro v)
        ++ " "
        ++ (if (3 <? major v) || ((major v =? 3) && (3 <=? minor v))
            then "" else "(INSUFFICIENT)")
        ++ newline.
Proof.
  intros env v. subst v.
  unfold printed_line, check_python, format_line, version_field,
    insufficient_field, version_info_slice3, version_info_slice2.
  set (a := major (version_info env)). set (b := minor (version_info env)).
  set (c := micro (version_info env)).
  assert (Hflag : Py.tuple_ge [a; b] [3; 3]
                  = (3 <? a) || ((a =? 3) && (3 <=? b))).
  { apply Bool.eq_true_iff_eq. rewrite tuple_ge_pair.
    rewrite Bool.orb_true_iff, Bool.andb_true_iff.
    rewrite Z.ltb_lt, Z.eqb_eq, Z.leb_le. reflexivity. }
  rewrite Hflag.
  set (V := Py.join "." (map Py.str [a; b; c])).
  assert (HV : V = Py.str a ++ "." ++ Py.str b ++ "." ++ Py.str c) by reflexivity.
  assert (Htruthy : Py.truthy (Some V) = true).
  { rewrite HV. simpl. destruct (Py.str a); reflexivity. }
  assert (Hor : Py.or_else (Some V) "NOT INSTALLED" = V).
  { simpl in *. now rewrite Htruthy. }
  rewrite Hor, Htruthy, HV.
  destruct ((3 <? a) || ((a =? 3) && (3 <=? b))); simpl;
    repeat (progress (rewrite ?app_assoc_string; simpl)); reflexivity.
Qed.

(** ** From the environment to the report *)

Lemma check_import_no_floor env package_name module_name r :
  check_import env package_name None module_name = Ok r ->
  cr_version r <> None -> cr_sufficient r = true.
Proof.
  rewrite check_import_cases.
  destruct (import_module env _) as [[[[v|]|] err]|e]; try discriminate.
  - intros H _. injection H as <-. reflexivity.
  - simpl. destruct (is_ImportError err); [|discriminate].
    intros H Hv. injection H as <-. now contradiction Hv.
  - destruct (is_ImportError e); [|discriminate].
    intros H Hv. injection H as <-. now contradiction Hv.
Qed.

Lemma check_cdecimal_version_sufficient env r :
  check_cdecimal env = Ok r -> cr_version r <> None -> cr_sufficient r = true.
Proof.
  cdecimal_cases; intros H Hv; try discriminate; injection H as <-;
    try reflexivity; now contradiction Hv.
Qed.

(** X16: with dateutil missing and an lxml whose version is below "3" in
    the order of strings, the report, when it is produced, shows dateutil
    as NOT INSTALLED on its fourth line and lxml with its version and
    (INSUFFICIENT) on its seventh. *)
Theorem report_missing_and_insufficient :
  forall env file deps e m c v,
    check_dependencies env = Ok deps ->
    import_module env "dateutil" = Fails e ->
    import_module env "lxml.etree" = Loaded m ->
    mod_version m = Some (PyStr (String c v)) ->
    Py.str_ge (String c v) "3" = false ->
    nth_error (printed (list_dependencies env file)) 3
      = Some (file_or_default file,
              "   dateutil        : NOT INSTALLED " ++ newline)
    /\ nth_error (printed (list_dependencies env file)) 6
       = Some (file_or_default file,
               "   lxml            : " ++ String c v ++ " (INSUFFICIENT)"
                 ++ newline).
Proof.
  intros env file deps e m c v H Hdate Hlxml Hver Hlow.
  unfold printed. rewrite list_dependencies_run, H.
  apply check_dependencies_inv in H.
  destruct H as (r & rs & _ & Hall & ->).
  unfold configured_imports in Hall.
  repeat match goal with
  | H : Forall2 _ (_ :: _) _ |- _ => inversion H; subst; clear H
  | H : Forall2 _ [] _ |- _ => inversion H; subst; clear H
  end.
  unfold run_import in *.
  repeat match goal with
  | H : check_import _ _ _ _ = Ok _ |- _ =>
      rewrite check_import_cases in H; simpl imported_name in H
  end.
  rewrite Hdate in *. rewrite Hlxml, Hver in *.
  destruct (is_ImportError e); [|discriminate].
  repeat match goal with
  | H : Ok _ = Ok ?y |- _ => injection H as <-
  end.
  rewrite sufficient_for_given, Hlow. simpl.
  split; [reflexivity|].
  unfold printed_line, format_line. simpl.
  repeat (progress (rewrite ?app_assoc_string; simpl)). reflexivity.
Qed.

Lemma report_missing_and_insufficient_witness :
  nth_error
    (printed (list_dependencies
                (with_module "lxml.etree" (installed "2.0") bare_env) None)) 3
    = Some (sys_stderr, "   dateutil        : NOT INSTALLED " ++ newline)
  /\ nth_error
       (printed (list_dependencies
                   (with_module "lxml.etree" (installed "2.0") bare_env) None)) 6
     = Some (sys_stderr, "   lxml            : 2.0 (INSUFFICIENT)" ++ newline).
Proof.
  apply (report_missing_and_insufficient
           (with_module "lxml.etree" (installed "2.0") bare_env) None
           [("python3", Some "3.3.0", true);
            ("cdecimal", Some "1.70 (built-in)", true);
            ("dateutil", None, false); ("bottle", None, false);
            ("ply", None, false); ("lxml", Some "2.0", false);
            ("apiclient", None, false); ("oauth2client", None, false)]
           ImportError {| mod_version := Some (PyStr "2.0");
               mod_version_error := AttributeError |} "2" ".0");
    reflexivity.
Defined.

(** X17: only python3, ply and lxml can be reported with a version and
    judged insufficient; cdecimal, dateutil, bottle, apiclient and
    oauth2client are sufficient as soon as they have a version, so their
    lines never get the (INSUFFICIENT) suffix. *)
Theorem insufficient_only_with_floor :
  forall env deps r,
    check_dependencies env = Ok deps ->
    In r deps ->
    insufficient_field (cr_version r) (cr_sufficient r) = "(INSUFFICIENT)" ->
    cr_name r = "python3" \/ cr_name r = "ply" \/ cr_name r = "lxml".
Proof.
  intros env deps r H Hin Hfield.
  assert (Hv : cr_version r <> None /\ cr_sufficient r = false).
  { unfold insufficient_field in Hfield.
    destruct (cr_version r) as [v|]; [|discriminate].
    destruct (cr_sufficient r); [|split; [discriminate | reflexivity]].
    rewrite Bool.andb_false_r in Hfield. discriminate. }
  destruct Hv as [Hv Hs].
  apply check_dependencies_inv in H.
  destruct H as (rc & rs & Hc & Hall & ->).
  unfold configured_imports in Hall.
  repeat match goal with
  | H : Forall2 _ (_ :: _) _ |- _ => inversion H; subst; clear H
  | H : Forall2 _ [] _ |- _ => inversion H; subst; clear H
  end.
  unfold run_import in *. simpl in Hin.
  repeat destruct Hin as [<- | Hin]; try contradiction;
    try (left; reflexivity);
    try (exfalso;
         match goal with
         | H : check_import _ _ None _ = Ok ?y |- _ =>
             apply check_import_no_floor in H; [congruence | assumption]
         | H : check_cdecimal _ = Ok ?y |- _ =>
             apply check_cdecimal_version_sufficient in H;
             [congruence | assumption]
         end).
  - right. left. eapply check_import_returns_name. eassumption.
  - right. right. eapply check_import_returns_name. eassumption.
Qed.

Lemma insufficient_only_with_floor_witness :
  cr_name ("lxml", Some "2.0", false) = "python3"
  \/ cr_name ("lxml", Some "2.0", false) = "ply"
  \/ cr_name ("lxml", Some "2.0", false) = "lxml".
Proof.
  apply (insufficient_only_with_floor
           (with_module "lxml.etree" (installed "2.0") bare_env)
           [("python3", Some "3.3.0", true);
            ("cdecimal", Some "1.70 (built-in)", true);
            ("dateutil", None, false); ("bottle", None, false);
            ("ply", None, false); ("lxml", Some "2.0", false);
            ("apiclient", None, false); ("oauth2client", None, false)]).
  - reflexivity.
  - simpl. auto 10.
  - reflexivity.
Defined.

(** X18: with a fast built-in decimal module the line of cdecimal reads
    the version of that module followed by (built-in), whatever importing
    cdecimal would do. *)
Theorem cdecimal_builtin_line :
  forall env,
    is_fast_decimal (stdlib_decimal env) = Ok true ->
    exists r,
      check_cdecimal env = Ok r
      /\ printed_line r
         = "   cdecimal        : " ++ decimal_version env ++ " (built-in) "
             ++ newline.
Proof.
  intros env Hfast. rewrite is_fast_stdlib_decimal in Hfast.
  rewrite check_cdecimal_cases.
  destruct (decimal_sqrt env); [|discriminate].
  eexists. split; [reflexivity|].
  unfold printed_line, format_line, version_field, insufficient_field.
  assert (Htruthy : Py.truthy (Some (decimal_version env ++ " (built-in)")) = true).
  { simpl. destruct (decimal_version env); reflexivity. }
  assert (Hor : Py.or_else (Some (decimal_version env ++ " (built-in)"))
                  "NOT INSTALLED"
                = decimal_version env ++ " (built-in)").
  { simpl in *. now rewrite Htruthy. }
  rewrite Hor, Htruthy. simpl.
  repeat (progress (rewrite ?app_assoc_string; simpl)). reflexivity.
Qed.

Lemma cdecimal_builtin_line_witness :
  exists r,
    check_cdecimal bare_env = Ok r
    /\ printed_line r = "   cdecimal        : 1.70 (built-in) " ++ newline.
Proof.
  apply (cdecimal_builtin_line bare_env). reflexivity.
Defined.

(** X19: the minimal version given to [check_import] bears on the
    sufficiency flag only: with another minimal version the call returns
    the same name and version, or raises the same exception. *)
Theorem check_import_floor_only_flag :
  forall env package_name min_version min_version' module_name,
    match check_import env package_name min_version module_name,
          check_import env package_name min_version' module_name with
    | Ok r, Ok r' => cr_name r = cr_name r' /\ cr_version r = cr_version r'
    | Raise e, Raise e' => e = e'
    | _, _ => False
    end.
Proof.
  intros env package_name min_version min_version' module_name.
  rewrite !check_import_cases.
  destruct (import_module env _) as [[[[v|]|] err]|e]; simpl; auto.
  - destruct (is_ImportError err); simpl; auto.
  - destruct (is_ImportError e); simpl; auto.
Qed.
